(** * Selectors of the compare page

    A shallow embedding of the derived-data selectors of the compare page
    (facet / filter selection, cross product of entity ids, join against the
    combined-record stores, grouping and status aggregation), followed by the
    properties proved about them.

    Conventions of the embedding:
    - a value that may be [undefined] is an [option], [None] being [undefined];
    - a selector that may raise a [TypeError] (reading a property of
      [undefined]) returns an [option] as well, [None] being the exception;
      the monadic bind of [option] is then exactly "dereference or throw";
    - JavaScript objects used as dictionaries are [gmap string _], the map of
      their own properties; where the selectors index such an object with a
      key that comes from the props or from a key builder, the read goes
      through the prototype chain ([JS.get]);
    - an id list of the props is [undefined], [null] or an array
      ([JS.Nullable]); tests of truthiness and [|| []] see the last two alike;
    - selectors built with [createSelector] are the composition of their input
      selectors with their result function; the result function [f] of a
      selector [sel] is named [sel_result]. *)

From stdpp Require Import base option list strings pretty sorting gmap.
From Stdlib Require Import ZArith.

Local Open Scope Z_scope.

(** ** JavaScript primitives *)

Module JS.

(** [Array.prototype.join]. *)
Definition join (sep : string) (l : list string) : string := String.concat sep l.

(** [Array.prototype.sort] with a comparator, as a stable insertion sort.
    The comparators used below order pairwise distinct keys, for which every
    sorting algorithm produces the same array (see [sort_unique]). *)
Fixpoint insert {A} (cmp : A → A → Z) (x : A) (l : list A) : list A :=
  match l with
  | [] => [x]
  | y :: l' => if cmp x y <=? 0 then x :: y :: l' else y :: insert cmp x l'
  end.

Definition sort {A} (cmp : A → A → Z) (l : list A) : list A :=
  foldr (insert cmp) [] l.

(** [String(x)] of a possibly undefined string: what a template literal
    [${x}] and a property key made of [x] hold. *)
Definition stringOf (x : option string) : string := default "undefined" x.

(** Truthiness of a boolean that may be undefined. *)
Definition truthy (b : option bool) : bool := default false b.

(** [ids.forEach(id => { ... combinedIds.push(...) ... })]: the body either
    throws or pushes a batch of entries; the pushes accumulate in order. *)
Definition forEachPush {A B} (l : list A) (body : A → option (list B)) : option (list B) :=
  mjoin <$> mapM body l.

(** [d3.nest().key(key).object(items)]: the items grouped under the string
    given by [key], each group in the order of [items]. *)
Definition nestObject {A} (key : A → string) (items : list A) : gmap string (list A) :=
  foldl (λ obj item, <[key item := default [] (obj !! key item) ++ [item]]> obj) ∅ items.

(** A value that may be [undefined] or [null]. *)
Inductive Nullable (A : Type) :=
  | Undefined
  | Null
  | Defined (a : A).
Arguments Undefined {A}.
Arguments Null {A}.
Arguments Defined {A} _.

(** What [x && ...], [x || ...], [if (x)] and [x != null] see of an array or
    an object [x]: it is there, or it is not. *)
Definition nonNull {A} (x : Nullable A) : option A :=
  match x with
  | Defined a => Some a
  | Undefined | Null => None
  end.

(** A default parameter [x = d]: the default replaces [undefined] only, a
    [null] is passed on. *)
Definition defaultParameter {A} (d : A) (x : Nullable A) : Nullable A :=
  match x with
  | Undefined => Defined d
  | Null | Defined _ => x
  end.

(** [l.filter(keep)] with a callback that may throw: the callback runs once
    per element, in order, and is not run on an empty array. *)
Fixpoint filter {A} (keep : A → option bool) (l : list A) : option (list A) :=
  match l with
  | [] => Some []
  | x :: l' =>
      kept ← keep x;
      rest ← filter keep l';
      Some (if kept : bool then x :: rest else rest)
  end.

(** The property names that every plain object inherits from
    [Object.prototype]. *)
Definition objectPrototype : list string :=
  [ "constructor"; "hasOwnProperty"; "isPrototypeOf"; "propertyIsEnumerable";
    "toLocaleString"; "toString"; "valueOf"; "__proto__";
    "__defineGetter__"; "__defineSetter__"; "__lookupGetter__"; "__lookupSetter__" ].

(** What reading a property gives when it is not undefined: an own property
    of the object, or a built-in object, named by the property names that
    lead to it from a plain object without own properties
    ([["constructor"]] is the function [Object], [["toString"]] is
    [Object.prototype.toString]). *)
Inductive Value (A : Type) :=
  | Own (a : A)
  | Inherited (path : list string).
Arguments Own {A} _.
Arguments Inherited {A} _.

(** What reading a property of a built-in object does: it throws (as the
    poisoned [caller] and [arguments] of a strict function do), or gives
    undefined or null, or gives another value. *)
Inductive Outcome := Throws | Missing | Present.

(** [obj[key]] on a plain object [obj] with the own properties given: the own
    property if there is one, else the member of [Object.prototype] of that
    name if there is one, else undefined. *)
Definition get {A} (obj : gmap string A) (key : string) : option (Value A) :=
  match obj !! key with
  | Some a => Some (Own a)
  | None => if bool_decide (key ∈ objectPrototype) then Some (Inherited [key]) else None
  end.

(** The value read, when it is an own property. *)
Definition own {A} (v : Value A) : option A :=
  match v with
  | Own a => Some a
  | Inherited _ => None
  end.

End JS.

(** An id list of the props is read as an array that may be missing wherever
    it is only tested for truthiness or against [null]. *)
Coercion JS.nonNull : JS.Nullable >-> option.

Global Instance Outcome_eq_dec : EqDecision JS.Outcome.
Proof. solve_decision. Defined.

(** ** Statuses and fetchable resources *)

Inductive Status := StatusNotFetched | StatusFetching | StatusSuccess | StatusError.

Global Instance Status_eq_dec : EqDecision Status.
Proof. solve_decision. Defined.

(** Modelled from the spec: a fetchable resource [{ status, data }]; the store
    that owns these records is not part of the selectors. *)
Record Resource (T : Type) := { res_status : Status; res_data : option T }.
Arguments res_status {T} _.
Arguments res_data {T} _.

(** Modelled from the spec: the status combinator [status] of [../status],
    which is not part of the selectors' file. On one resource it reports the
    resource's status. *)
Definition status {T} (r : Resource T) : Status := res_status r.

(** Modelled from the spec: the status combinator [status] applied to a
    sequence of statuses, with precedence
    error > fetching > not-fetched > success. *)
Definition statusAll (statuses : list Status) : Status :=
  if decide (StatusError ∈ statuses) then StatusError
  else if decide (StatusFetching ∈ statuses) then StatusFetching
  else if decide (StatusNotFetched ∈ statuses) then StatusNotFetched
  else StatusSuccess.

(** The object built by [combineData]: one level of nesting (by facet item)
    or two (by facet item, then by breakdown item). *)
Inductive Grouped (R : Type) :=
  | ByFacetItem (byFacetItem : gmap string R)
  | ByFacetItemAndBreakdown (byFacetItem : gmap string (gmap string R)).
Arguments ByFacetItem {R} _.
Arguments ByFacetItemAndBreakdown {R} _.

(** ** External collaborators

    The entity ids, the composite-key builders ([makeId] of each combined
    store) and the utilities the selectors delegate to are owned by other
    modules; the selectors are parametric in them. *)
Class Collaborators := {
  Id : Type;
  Id_eq_dec :: EqDecision Id;
  (** [String(id)], the property key an id is stored under. *)
  idToString : Id → string;
  makeLocationClientIspId : Id → Id → string;
  makeLocationTransitIspId : Id → Id → string;
  makeClientIspTransitIspId : Id → Id → string;
  makeLocationClientIspTransitIspId : Id → Id → Id → string;
  TimeSeriesData : Type;
  HourlyData : Type;
  Counts : Type;
  Wrangled : Type;
  Metric : Type;
  (** [computeTimeSeriesCounts(combined)] reads the statuses, data and status
      gathered so far. *)
  computeTimeSeriesCounts : list Status → list TimeSeriesData → Status → Counts;
  wrangleHourly : option HourlyData → Metric → Wrangled;
  (** The [idKey] of the three entries of the facet-type catalog. *)
  locationIdKey : string;
  clientIspIdKey : string;
  transitIspIdKey : string;
  (** The built-in objects of the run-time: [builtinProperty path key] is
      what reading the property [key] of the built-in object [path] (see
      [JS.Value]) does. *)
  builtinProperty : list string → string → JS.Outcome;
}.

Section Selectors.
Context `{Collaborators}.

(** *** Facet types *)

Record FacetType := { value : string; idKey : string }.

(** Modelled from the spec: the entries of the facet-type catalog, one for
    each of the three dimensions. *)
Definition locationType : FacetType := {| value := "location"; idKey := locationIdKey |}.
Definition clientIspType : FacetType := {| value := "clientIsp"; idKey := clientIspIdKey |}.
Definition transitIspType : FacetType := {| value := "transitIsp"; idKey := transitIspIdKey |}.

(** Modelled from the spec: the facet-type catalog [facetTypes] of
    [../../constants], which is not part of the selectors' file: the three
    dimensions, [location] first (the fallback entry, "using location"). *)
Definition facetTypes : list FacetType := [locationType; clientIspType; transitIspType].

(** The react props with the URL query parameters the selectors read. The
    two strings are only compared with [===], which no missing value
    satisfies: [None] is [undefined] or [null]. *)
Record Props := {
  facetType : option string;
  facetItemIds : JS.Nullable (list Id);
  filter1Ids : JS.Nullable (list Id);
  filter2Ids : JS.Nullable (list Id);
  breakdownBy : option string;
}.

(** [extractFacetType]: the catalog entry with the given value, or the first
    entry when there is none (the warning is a development-only log). *)
Definition extractFacetType (facetTypeValue : option string) : FacetType :=
  match List.find (λ facetType, bool_decide (Some (value facetType) = facetTypeValue)) facetTypes with
  | Some facetType => facetType
  | None => locationType (* facetTypes[0] *)
  end.

(** The input selectors; none of them reads the redux state. *)
Definition getFacetType (props : Props) : FacetType := extractFacetType (facetType props).
Definition getFacetItemIds (props : Props) : JS.Nullable (list Id) := facetItemIds props.
Definition getFilter1Ids (props : Props) : JS.Nullable (list Id) := filter1Ids props.
Definition getFilter2Ids (props : Props) : JS.Nullable (list Id) := filter2Ids props.
Definition getBreakdownBy (props : Props) : option string := breakdownBy props.

(** [getFilterTypes]: which type is filter1 and which one is filter2. *)
Definition getFilterTypes (props : Props) : list FacetType :=
  let facetType := getFacetType props in
  if (value facetType =? "location")%string then
    [extractFacetType (Some "clientIsp"); extractFacetType (Some "transitIsp")]
  else if (value facetType =? "clientIsp")%string then
    [extractFacetType (Some "location"); extractFacetType (Some "transitIsp")]
  else if (value facetType =? "transitIsp")%string then
    [extractFacetType (Some "location"); extractFacetType (Some "clientIsp")]
  else [].

(** *** The cross product of the selected ids *)

(** The tags ['facet'], ['filter1'] and ['filter2'] of the [type] field. *)
Inductive Role := facet | filter1 | filter2.

Global Instance Role_eq_dec : EqDecision Role.
Proof. solve_decision. Defined.

(** An entry of the local array [combined] of [getCombinedTypeAndIds]: one
    active dimension. [dim_breakdownBy] is undefined on the facet entry. *)
Record Dimension := {
  dim_value : string;
  dim_type : Role;
  dim_breakdownBy : option bool;
  dim_ids : list Id;
  dim_sort : option Z;
}.

Record CombinedId := {
  facetItemId : Id;
  breakdownByItemId : option Id;
  filterItemId : Id;
  combined : string;
}.

Record CombinedTypeAndIds := {
  combinedType : string;
  combinedIds : list CombinedId;
}.

Definition sortValues : gmap string Z :=
  {[ "location" := 0; "clientIsp" := 1; "transitIsp" := 2 ]}.

(** The comparator [(a, b) => a.sort - b.sort]; a difference with an undefined
    operand is NaN, which [Array.prototype.sort] reads as [+0]. *)
Definition compareSort (a b : Dimension) : Z :=
  match dim_sort a, dim_sort b with
  | Some x, Some y => x - y
  | _, _ => 0
  end.

(** [ids && ids.length]: the ids are defined and there is at least one. *)
Definition hasIds (ids : option (list Id)) : bool :=
  match ids with
  | Some (_ :: _) => true
  | _ => false
  end.

(** "find out which filters are active": the array [combined] before it is
    sorted. The facet entry holds [facetItemIds || []]; a filter entry holds
    its ids, which are defined where it is pushed. Reading [filter1Type.value]
    of an undefined filter type throws. *)
Definition activeDimensions (facetType : FacetType) (facetItemIds : option (list Id))
    (filterTypes : list FacetType) (filter1Ids filter2Ids : option (list Id))
    (breakdownBy : option string) : option (list Dimension) :=
  let filter1Type := filterTypes !! 0%nat in
  let filter2Type := filterTypes !! 1%nat in
  let combined :=
    [ {| dim_value := value facetType;
         dim_type := facet;
         dim_breakdownBy := None;
         dim_ids := default [] facetItemIds;
         dim_sort := sortValues !! value facetType |} ] in
  pushed1 ←
    (if hasIds filter1Ids then
       filter1Type ← filter1Type;
       Some [ {| dim_value := value filter1Type;
                 dim_type := filter1;
                 dim_breakdownBy := Some (bool_decide (breakdownBy = Some "filter1"));
                 dim_ids := default [] filter1Ids;
                 dim_sort := sortValues !! value filter1Type |} ]
     else Some []);
  pushed2 ←
    (if hasIds filter2Ids then
       filter2Type ← filter2Type;
       Some [ {| dim_value := value filter2Type;
                 dim_type := filter2;
                 dim_breakdownBy := Some (bool_decide (breakdownBy = Some "filter2"));
                 dim_ids := default [] filter2Ids;
                 dim_sort := sortValues !! value filter2Type |} ]
     else Some []);
  Some (combined ++ pushed1 ++ pushed2).

(** The entry pushed by the two-dimension cases of the [switch], for the ids
    [firstId] of [combined[0]] and [secondId] of [combined[1]]. *)
Definition pairEntry (makeId : Id → Id → string) (first : Dimension)
    (firstId secondId : Id) : CombinedId :=
  {| facetItemId := if bool_decide (dim_type first = facet) then firstId else secondId;
     breakdownByItemId := None;
     filterItemId := if bool_decide (dim_type first ≠ facet) then firstId else secondId;
     combined := makeId firstId secondId |}.

(** The three two-dimension cases of the [switch] have one shape: the ids of
    [combined[0]] in the outer loop, those of [combined[1]] in the inner one,
    and the composite key of the case. *)
Definition crossTwo (makeId : Id → Id → string) (combined : list Dimension)
    : option (list CombinedId) :=
  first ← combined !! 0%nat;
  JS.forEachPush (dim_ids first) (λ firstId,
    second ← combined !! 1%nat;
    Some (pairEntry makeId first firstId <$> dim_ids second)).

(** The entry pushed by the case ['location-clientIsp-transitIsp'], with its
    three ternary cascades. *)
Definition tripleEntry (locations clientIsps : Dimension)
    (locationId clientIspId transitIspId : Id) : CombinedId :=
  {| facetItemId :=
       if bool_decide (dim_type locations = facet) then locationId
       else if bool_decide (dim_type clientIsps = facet) then clientIspId
       else transitIspId;
     breakdownByItemId :=
       Some (if JS.truthy (dim_breakdownBy locations) then locationId
             else if JS.truthy (dim_breakdownBy clientIsps) then clientIspId
             else transitIspId);
     filterItemId :=
       if bool_decide (dim_breakdownBy locations = Some false) then locationId
       else if bool_decide (dim_breakdownBy clientIsps = Some false) then clientIspId
       else transitIspId;
     combined := makeLocationClientIspTransitIspId locationId clientIspId transitIspId |}.

(** The case ['location-clientIsp-transitIsp'] of the [switch]. *)
Definition crossThree (combined : list Dimension) : option (list CombinedId) :=
  locations ← combined !! 0%nat;
  JS.forEachPush (dim_ids locations) (λ locationId,
    clientIsps ← combined !! 1%nat;
    JS.forEachPush (dim_ids clientIsps) (λ clientIspId,
      transitIsps ← combined !! 2%nat;
      Some (tripleEntry locations clientIsps locationId clientIspId <$> dim_ids transitIsps))).

(** "compute combined IDs": the [switch] over [combinedType]. *)
Definition computeCombinedIds (combinedType : string) (combined : list Dimension)
    : option (list CombinedId) :=
  if (combinedType =? "location-clientIsp")%string then
    crossTwo makeLocationClientIspId combined
  else if (combinedType =? "location-transitIsp")%string then
    crossTwo makeLocationTransitIspId combined
  else if (combinedType =? "clientIsp-transitIsp")%string then
    crossTwo makeClientIspTransitIspId combined
  else if (combinedType =? "location-clientIsp-transitIsp")%string then
    crossThree combined
  else Some [].

Definition getCombinedTypeAndIds_result (facetType : FacetType)
    (facetItemIds : option (list Id)) (filterTypes : list FacetType)
    (filter1Ids filter2Ids : option (list Id)) (breakdownBy : option string)
    : option CombinedTypeAndIds :=
  combined ← activeDimensions facetType facetItemIds filterTypes filter1Ids filter2Ids breakdownBy;
  (* the sort is in place: the cases of the switch index the sorted array *)
  let combined := JS.sort compareSort combined in
  let combinedType := JS.join "-" (dim_value <$> combined) in
  combinedIds ← computeCombinedIds combinedType combined;
  Some {| combinedType := combinedType; combinedIds := combinedIds |}.

(** The result function tests the id lists for truthiness ([ids && ...],
    [ids || []]) and reads them nowhere else: it is given what these tests
    see of them. *)
Definition getCombinedTypeAndIds (props : Props) : option CombinedTypeAndIds :=
  getCombinedTypeAndIds_result (getFacetType props) (getFacetItemIds props)
    (getFilterTypes props) (getFilter1Ids props) (getFilter2Ids props)
    (getBreakdownBy props).

(** *** The join against the combined-record stores *)

Record Time := {
  timeSeries : Resource TimeSeriesData;
  hourly : Resource HourlyData;
}.

(** A combined record [{ time: { timeSeries, hourly } }] of a store. *)
Record CombinedRecord := { time : Time }.

(** An entry [{ id, data }] of [getCombinedItems]: its [data] is what the
    read of the composite key gave, and it is not null. *)
Record JoinedItem := { joined_id : CombinedId; joined_data : JS.Value CombinedRecord }.

(** [source[key]] for the [source] that [sourceMap[combinedType]] gave: one
    of the four stores, a plain object, or a built-in object. The outer
    [option] is the exception, the inner one the undefined or null value. *)
Definition readSource (source : JS.Value (gmap string CombinedRecord)) (key : string)
    : option (option (JS.Value CombinedRecord)) :=
  match source with
  | JS.Own store => Some (JS.get store key)
  | JS.Inherited path =>
      match builtinProperty path key with
      | JS.Throws => None
      | JS.Missing => Some None
      | JS.Present => Some (Some (JS.Inherited (path ++ [key])))
      end
  end.

(** [sourceMap] is an object literal and the stores are plain objects; both
    are indexed with [obj[key]], which also finds the members they inherit.
    Whatever [sourceMap[combinedType]] finds is truthy. [None] is the
    exception of a read that throws. *)
Definition getCombinedItems_result (combinedTypeAndIds : CombinedTypeAndIds)
    (locationClientIsps locationTransitIsps clientIspTransitIsps
       locationClientIspTransitIsps : gmap string CombinedRecord)
    : option (list JoinedItem) :=
  let sourceMap : gmap string (gmap string CombinedRecord) :=
    {[ "location-clientIsp" := locationClientIsps;
       "location-clientIsp-transitIsp" := locationClientIspTransitIsps;
       "location-transitIsp" := locationTransitIsps;
       "clientIsp-transitIsp" := clientIspTransitIsps ]} in
  match JS.get sourceMap (combinedType combinedTypeAndIds) with
  | Some source =>
      mapped ← mapM (λ id, data ← readSource source (combined id); Some (id, data))
                    (combinedIds combinedTypeAndIds);
      (* filter(d => d.data != null) *)
      Some (omap (λ d : CombinedId * option (JS.Value CombinedRecord),
                    data ← d.2; Some {| joined_id := d.1; joined_data := data |})
                 mapped)
  | None => Some []
  end.

(** *** Grouping and aggregation *)

(** An item whose [data] is a record of a store, which is what the combiners
    below take their items to be. *)
Record Item := { item_id : CombinedId; item_data : CombinedRecord }.

(** The items as the combiners read them. [combineTimeSeries] and
    [combineHourly] start by reading [item.data.time.timeSeries] and
    [item.data.time.hourly] of every item they are given, and [combineData]
    hands every item to one call of its combiner. On a record of a store the
    read succeeds; a built-in object has no [time], and reading a property of
    [undefined] throws. *)
Definition itemRecords (combinedItems : list JoinedItem) : option (list Item) :=
  mapM (λ item, data ← JS.own (joined_data item);
                Some {| item_id := joined_id item; item_data := data |})
       combinedItems.

Definition combineData {R} (combine : list Item → Metric → R) (combinedType : string)
    (combinedItems : option (list Item)) (viewMetric : Metric) : option (Grouped R) :=
  match combinedItems with
  | None | Some [] => None
  | Some combinedItems =>
      let byFacet := λ item, idToString (facetItemId (item_id item)) in
      let byBreakdown := λ item, JS.stringOf (idToString <$> breakdownByItemId (item_id item)) in
      if (combinedType =? "location-clientIsp-transitIsp")%string then
        let byFacetItem := JS.nestObject byBreakdown <$> JS.nestObject byFacet combinedItems in
        Some (ByFacetItemAndBreakdown
                ((λ byBreakdown, (λ items, combine items viewMetric) <$> byBreakdown)
                   <$> byFacetItem))
      else
        let byFacetItem := JS.nestObject byFacet combinedItems in
        Some (ByFacetItem ((λ items, combine items viewMetric) <$> byFacetItem))
  end.

(** The combined time series of a group. *)
Record CombinedTimeSeries := {
  cts_statuses : list Status;
  cts_data : list TimeSeriesData;
  cts_status : Status;
  cts_counts : Counts;
}.

Definition combineTimeSeries (itemsToCombine : list Item) : CombinedTimeSeries :=
  let timeSeriesToCombine := (λ item, timeSeries (time (item_data item))) <$> itemsToCombine in
  let combinedTimeSeries :=
    foldl (λ combined timeSeriesObject,
             (combined.1 ++ [status timeSeriesObject],
              match res_data timeSeriesObject with
              | Some data => combined.2 ++ [data]
              | None => combined.2
              end))
          ([], []) timeSeriesToCombine in
  let statuses := combinedTimeSeries.1 in
  let data := combinedTimeSeries.2 in
  let status := statusAll statuses in
  {| cts_statuses := statuses;
     cts_data := data;
     cts_status := status;
     cts_counts := computeTimeSeriesCounts statuses data status |}.

Definition getCombinedTimeSeries_result (combinedTypeAndIds : CombinedTypeAndIds)
    (facetItemIds : option (list Id)) (combinedItems : option (list Item))
    (viewMetric : Metric) : option (Grouped CombinedTimeSeries) :=
  combineData (λ itemsToCombine _, combineTimeSeries itemsToCombine)
    (combinedType combinedTypeAndIds) combinedItems viewMetric.

(** An entry of the hourly list of a group. *)
Record HourlyObject := {
  ho_id : Id;
  ho_data : option HourlyData;
  ho_status : Status;
  ho_wrangled : Wrangled;
}.

Definition combineHourly (itemsToCombine : list Item) (viewMetric : Metric) : list HourlyObject :=
  (λ item,
     {| ho_id := filterItemId (item_id item);
        ho_data := res_data (hourly (time (item_data item)));
        ho_status := status (hourly (time (item_data item)));
        ho_wrangled := wrangleHourly (res_data (hourly (time (item_data item)))) viewMetric |})
  <$> itemsToCombine.

Definition getCombinedHourly_result (combinedTypeAndIds : CombinedTypeAndIds)
    (facetItemIds : option (list Id)) (combinedItems : option (list Item))
    (viewMetric : Metric) : option (Grouped (list HourlyObject)) :=
  combineData combineHourly (combinedType combinedTypeAndIds) combinedItems viewMetric.

(** *** The top filters *)

(** A ranked candidate of the top store: the properties that hold an id. *)
Definition TopItem : Type := gmap string Id.

Definition topKeyFromTypes (facetType filterType : FacetType) : string :=
  let prefix :=
    if (value filterType =? "location")%string then Some "locations"
    else if (value filterType =? "clientIsp")%string then Some "clientIsps"
    else if (value filterType =? "transitIsp")%string then Some "transitIsps"
    else None in
  let suffix :=
    if (value facetType =? "location")%string then Some "ForLocations"
    else if (value facetType =? "clientIsp")%string then Some "ForClientIsps"
    else if (value facetType =? "transitIsp")%string then Some "ForTransitIsps"
    else None in
  (JS.stringOf prefix +:+ JS.stringOf suffix)%string.

(** [filterIds.includes(d[idKey])]. An id key that [d] inherits reads as a
    built-in object, which is no selected id, as little as undefined is. *)
Definition includes (filterIds : list Id) (x : option Id) : bool :=
  match x with
  | Some i => bool_decide (i ∈ filterIds)
  | None => false
  end.

Record TopFilter := { tf_data : list TopItem; tf_status : Status }.

(** [topFilter]. [filterIds] defaults to the empty array when it is
    undefined, not when it is null; reading [.data] of a missing entry of the
    top store throws, and so does reading [.includes] of a null [filterIds],
    for the first candidate. The keys that [topKeyFromTypes] builds are no
    names of [Object.prototype] (see [topKeyFromTypes_own]), so the top store
    is read for its own properties. *)
Definition topFilter (topState : gmap string (Resource (list TopItem)))
    (facetType filterType : FacetType) (filterIds : JS.Nullable (list Id))
    : option TopFilter :=
  let filterIds := JS.defaultParameter [] filterIds in
  let topKey := topKeyFromTypes facetType filterType in
  let idKey := idKey filterType in
  entry ← topState !! topKey;
  let topItems := default [] (res_data entry) in
  let statusStr := status entry in
  (* remove already selected ones *)
  topItems ← JS.filter (λ d : TopItem,
                          filterIds ← JS.nonNull filterIds;
                          Some (negb (includes filterIds (d !! idKey))))
                       topItems;
  Some {| tf_data := take 20 topItems; tf_status := statusStr |}.

(** [getTopFilter1] and [getTopFilter2], given the top store of the state. *)
Definition getTopFilter1 (top : gmap string (Resource (list TopItem))) (props : Props)
    : option TopFilter :=
  filterType ← getFilterTypes props !! 0%nat;
  topFilter top (getFacetType props) filterType (getFilter1Ids props).

Definition getTopFilter2 (top : gmap string (Resource (list TopItem))) (props : Props)
    : option TopFilter :=
  filterType ← getFilterTypes props !! 1%nat;
  topFilter top (getFacetType props) filterType (getFilter2Ids props).

End Selectors.

(** ** Vocabulary of the properties *)

Section Vocabulary.
Context `{Collaborators}.

(** The filter dimensions that take part in a selection: those whose id list
    is defined and not empty. *)
Definition activeFilterTypes (props : Props) : list FacetType :=
  (if hasIds (filter1Ids props) then option_list (getFilterTypes props !! 0%nat) else []) ++
  (if hasIds (filter2Ids props) then option_list (getFilterTypes props !! 1%nat) else []).

(** The kinds of the active dimensions: the facet, then the active filters. *)
Definition activeDimensionKinds (props : Props) : list string :=
  value (getFacetType props) :: (value <$> activeFilterTypes props).

(** The id lists of the active dimensions, in the same order. *)
Definition activeIdLists (props : Props) : list (list Id) :=
  default [] (facetItemIds props) ::
  (if hasIds (filter1Ids props) then [default [] (filter1Ids props)] else []) ++
  (if hasIds (filter2Ids props) then [default [] (filter2Ids props)] else []).

(** The entry of the array [combined] for the facet, and the one for a filter
    in the role [role], whose flag compares [breakdownBy] with [name]. *)
Definition facetDimension (t : FacetType) (ids : option (list Id)) : Dimension :=
  {| dim_value := value t;
     dim_type := facet;
     dim_breakdownBy := None;
     dim_ids := default [] ids;
     dim_sort := sortValues !! value t |}.

Definition filterDimension (role : Role) (name : string) (t : FacetType)
    (ids : option (list Id)) (breakdownBy : option string) : Dimension :=
  {| dim_value := value t;
     dim_type := role;
     dim_breakdownBy := Some (bool_decide (breakdownBy = Some name));
     dim_ids := default [] ids;
     dim_sort := sortValues !! value t |}.

(** The key the comparator orders a dimension by, where it is defined. *)
Definition sortKey (d : Dimension) : Z := default 0 (dim_sort d).

(** The entries of the nested loops over two and over three dimensions. *)
Definition cross2 (makeId : Id → Id → string) (a b : Dimension) : list CombinedId :=
  dim_ids a ≫= λ x, pairEntry makeId a x <$> dim_ids b.

Definition cross3 (a b c : Dimension) : list CombinedId :=
  dim_ids a ≫= λ x, dim_ids b ≫= λ y, tripleEntry a b x y <$> dim_ids c.

(** The combined type of a set of dimension kinds, in the spec's words: the
    kinds in the fixed priority order location, clientIsp, transitIsp, joined
    with dashes. *)
Definition canonicalType (kinds : gset string) : string :=
  JS.join "-" (filter (λ kind, kind ∈ kinds) ["location"; "clientIsp"; "transitIsp"]).

(** The four combined types the cross product knows. *)
Definition recognizedTypes : list string :=
  [ "clientIsp-transitIsp"; "location-clientIsp";
    "location-clientIsp-transitIsp"; "location-transitIsp" ].

(** The ids of a three-dimension combination in the canonical dimension order
    (location, clientIsp, transitIsp), given the ids [f], [a] and [b] that the
    facet, filter1 and filter2 contribute. *)
Definition canonicalTriple (props : Props) (f a b : Id) : Id * Id * Id :=
  if (value (getFacetType props) =? "location")%string then (f, a, b)
  else if (value (getFacetType props) =? "clientIsp")%string then (a, f, b)
  else (a, b, f).

Definition tripleKey (props : Props) (f a b : Id) : string :=
  let '(locationId, clientIspId, transitIspId) := canonicalTriple props f a b in
  makeLocationClientIspTransitIspId locationId clientIspId transitIspId.

(** The id of the transitIsp dimension in a three-dimension combination. *)
Definition transitIspIdOf (props : Props) (f a b : Id) : Id :=
  (canonicalTriple props f a b).2.

(** The id of the filter dimension that comes first in the canonical order:
    the first id of the canonical triple that is not the facet's. *)
Definition firstFilterIdOf (props : Props) (f a b : Id) : Id :=
  let '(locationId, clientIspId, _) := canonicalTriple props f a b in
  if (value (getFacetType props) =? "location")%string then clientIspId else locationId.

(** The combined-record store that belongs to a combined type, if any. *)
Definition storeFor (combinedType : string)
    (locationClientIsps locationTransitIsps clientIspTransitIsps
       locationClientIspTransitIsps : gmap string CombinedRecord)
    : option (gmap string CombinedRecord) :=
  if decide (combinedType = "location-clientIsp") then Some locationClientIsps
  else if decide (combinedType = "location-clientIsp-transitIsp") then
    Some locationClientIspTransitIsps
  else if decide (combinedType = "location-transitIsp") then Some locationTransitIsps
  else if decide (combinedType = "clientIsp-transitIsp") then Some clientIspTransitIsps
  else None.

(** The status of the time series of a joined item. *)
Definition timeSeriesStatus (item : Item) : Status :=
  status (timeSeries (time (item_data item))).

(** The id a ranked candidate holds under the id key of a filter type is one
    of the selected ids. *)
Definition isSelected (filterType : FacetType) (filterIds : option (list Id))
    (d : TopItem) : Prop :=
  match d !! idKey filterType with
  | Some i => i ∈ default [] filterIds
  | None => False
  end.

Global Instance isSelected_dec filterType filterIds d :
  Decision (isSelected filterType filterIds d).
Proof. unfold isSelected. destruct (d !! idKey filterType); apply _. Defined.

End Vocabulary.

(** ** The selectors of the entities and the composed selectors *)

Section Entities.
Context `{Collaborators}.

(** The [time] of an entity of a store. [getFacetItemTimeSeries] tests its
    time series before reading it; the hourly resource is read untested. *)
Record EntityTime := {
  et_timeSeries : option (Resource TimeSeriesData);
  et_hourly : option (Resource HourlyData);
}.

(** An entity (location, client ISP or transit ISP) of a store: the fields
    the selectors below read. *)
Record Entity := { ent_id : Id; ent_time : EntityTime }.

(** The store that holds the entities of a facet type: the [if] chain that
    sets the local [items], which stays undefined for an unknown value. *)
Definition itemsOfType (type : FacetType) (locations clientIsps transitIsps : gmap string Entity)
    : option (gmap string Entity) :=
  if (value type =? "location")%string then Some locations
  else if (value type =? "clientIsp")%string then Some clientIsps
  else if (value type =? "transitIsp")%string then Some transitIsps
  else None.

(** The stores are plain objects indexed with [items[id]], which also finds
    the members they inherit: a facet item is an entity of the store or a
    built-in object. *)
Definition getFacetItems_result (facetType : FacetType) (facetItemIds : option (list Id))
    (locations clientIsps transitIsps : gmap string Entity) : list (JS.Value Entity) :=
  let items := itemsOfType facetType locations clientIsps transitIsps in
  match facetItemIds, items with
  | Some facetItemIds, Some items =>
      (* map(id => items[id]).filter(d => d != null) *)
      omap (λ id, JS.get items (idToString id)) facetItemIds
  | _, _ => []
  end.

Definition getFacetItems (props : Props) (locations clientIsps transitIsps : gmap string Entity)
    : list (JS.Value Entity) :=
  getFacetItems_result (getFacetType props) (getFacetItemIds props)
    locations clientIsps transitIsps.

(** [filterIds.map(id => items[id]).filter(d => d != null)] where [items] may
    be undefined: indexing it throws, once per id. *)
Definition inflate (items : option (gmap string Entity)) (filterIds : list Id)
    : option (list (JS.Value Entity)) :=
  (λ found, omap id found)
    <$> mapM (λ id, items ← items; Some (JS.get items (idToString id))) filterIds.

(** [getFilter1Items]: the filter type is the first of the filter types
    (reading [.value] of an undefined one throws), and [items] is not tested
    before it is indexed. *)
Definition getFilter1Items_result (filterTypes : list FacetType) (filterIds : option (list Id))
    (locations clientIsps transitIsps : gmap string Entity)
    : option (list (JS.Value Entity)) :=
  filterType ← filterTypes !! 0%nat;
  let items := itemsOfType filterType locations clientIsps transitIsps in
  match filterIds with
  | Some filterIds => inflate items filterIds
  | None => Some []
  end.

Definition getFilter1Items (props : Props) (locations clientIsps transitIsps : gmap string Entity)
    : option (list (JS.Value Entity)) :=
  getFilter1Items_result (getFilterTypes props) (getFilter1Ids props)
    locations clientIsps transitIsps.

(** [getFilter2Items]: the same with the second filter type. *)
Definition getFilter2Items_result (filterTypes : list FacetType) (filterIds : option (list Id))
    (locations clientIsps transitIsps : gmap string Entity)
    : option (list (JS.Value Entity)) :=
  filterType ← filterTypes !! 1%nat;
  let items := itemsOfType filterType locations clientIsps transitIsps in
  match filterIds with
  | Some filterIds => inflate items filterIds
  | None => Some []
  end.

Definition getFilter2Items (props : Props) (locations clientIsps transitIsps : gmap string Entity)
    : option (list (JS.Value Entity)) :=
  getFilter2Items_result (getFilterTypes props) (getFilter2Ids props)
    locations clientIsps transitIsps.

(** An entry [{ id, status, data }] of the time series of the facet items. *)
Record TimeSeriesObject := {
  tso_id : Id;
  tso_status : Status;
  tso_data : option TimeSeriesData;
}.

Record FacetItemTimeSeries := {
  fts_combined : CombinedTimeSeries;
  fts_timeSeries : list TimeSeriesObject;
}.

(** [getFacetItemTimeSeries]: undefined without facet items; a facet item
    without a time series is left out. *)
Definition getFacetItemTimeSeries_result (facetItems : option (list Entity))
    : option FacetItemTimeSeries :=
  match facetItems with
  | None => None
  | Some facetItems =>
      let timeSeries :=
        omap (λ facetItem,
                timeSeries ← et_timeSeries (ent_time facetItem);
                Some {| tso_id := ent_id facetItem;
                        tso_status := status timeSeries;
                        tso_data := res_data timeSeries |})
             facetItems in
      let combined :=
        foldl (λ (combined : list Status * list TimeSeriesData) timeSeries,
                 (combined.1 ++ [tso_status timeSeries],
                  match tso_data timeSeries with
                  | Some data => combined.2 ++ [data]
                  | None => combined.2
                  end))
              ([], []) timeSeries in
      let status := statusAll combined.1 in
      Some {| fts_combined :=
                {| cts_statuses := combined.1;
                   cts_data := combined.2;
                   cts_status := status;
                   cts_counts := computeTimeSeriesCounts combined.1 combined.2 status |};
              fts_timeSeries := timeSeries |}
  end.

(** The facet items as [getFacetItemTimeSeries] and [getFacetItemHourly] read
    them: both start by reading [facetItem.time.timeSeries] or
    [facetItem.time.hourly] of every facet item. On an entity of a store the
    read of [time] succeeds; a built-in object has no [time], and reading a
    property of [undefined] throws. *)
Definition facetEntities (facetItems : list (JS.Value Entity)) : option (list Entity) :=
  mapM JS.own facetItems.

(** The outer [option] is the exception, the inner one the undefined
    result. *)
Definition getFacetItemTimeSeries (props : Props)
    (locations clientIsps transitIsps : gmap string Entity)
    : option (option FacetItemTimeSeries) :=
  facetItems ← facetEntities (getFacetItems props locations clientIsps transitIsps);
  Some (getFacetItemTimeSeries_result (Some facetItems)).

(** [getFacetItemHourly]: the outer [option] is the [TypeError] of reading
    [.data] of an undefined hourly resource, the inner one the undefined
    result without facet items. *)
Definition getFacetItemHourly_result (facetItems : option (list Entity)) (viewMetric : Metric)
    : option (option (list HourlyObject)) :=
  match facetItems with
  | None => Some None
  | Some facetItems =>
      Some <$> mapM (λ facetItem,
                       hourly ← et_hourly (ent_time facetItem);
                       Some {| ho_id := ent_id facetItem;
                               ho_data := res_data hourly;
                               ho_status := status hourly;
                               ho_wrangled := wrangleHourly (res_data hourly) viewMetric |})
                    facetItems
  end.

Definition getFacetItemHourly (props : Props)
    (locations clientIsps transitIsps : gmap string Entity) (viewMetric : Metric)
    : option (option (list HourlyObject)) :=
  facetItems ← facetEntities (getFacetItems props locations clientIsps transitIsps);
  getFacetItemHourly_result (Some facetItems) viewMetric.

(** [getCombinedItems], [getCombinedTimeSeries] and [getCombinedHourly] as
    selectors of the props, given what the input selectors of the four
    combined stores and [getViewMetric] return. The outer [option] of the
    last two is the exception, the inner one the undefined result. *)
Definition getCombinedItems (props : Props)
    (locationClientIsps locationTransitIsps clientIspTransitIsps
       locationClientIspTransitIsps : gmap string CombinedRecord)
    : option (list JoinedItem) :=
  combinedTypeAndIds ← getCombinedTypeAndIds props;
  getCombinedItems_result combinedTypeAndIds locationClientIsps locationTransitIsps
    clientIspTransitIsps locationClientIspTransitIsps.

Definition getCombinedTimeSeries (props : Props)
    (locationClientIsps locationTransitIsps clientIspTransitIsps
       locationClientIspTransitIsps : gmap string CombinedRecord) (viewMetric : Metric)
    : option (option (Grouped CombinedTimeSeries)) :=
  combinedTypeAndIds ← getCombinedTypeAndIds props;
  combinedItems ← getCombinedItems props locationClientIsps locationTransitIsps
                     clientIspTransitIsps locationClientIspTransitIsps;
  combinedItems ← itemRecords combinedItems;
  Some (getCombinedTimeSeries_result combinedTypeAndIds (getFacetItemIds props)
          (Some combinedItems) viewMetric).

Definition getCombinedHourly (props : Props)
    (locationClientIsps locationTransitIsps clientIspTransitIsps
       locationClientIspTransitIsps : gmap string CombinedRecord) (viewMetric : Metric)
    : option (option (Grouped (list HourlyObject))) :=
  combinedTypeAndIds ← getCombinedTypeAndIds props;
  combinedItems ← getCombinedItems props locationClientIsps locationTransitIsps
                     clientIspTransitIsps locationClientIspTransitIsps;
  combinedItems ← itemRecords combinedItems;
  Some (getCombinedHourly_result combinedTypeAndIds (getFacetItemIds props)
          (Some combinedItems) viewMetric).



(** The keys of an object built by [combineData]: the facet item keys, and
    under each of them the breakdown keys when there are two levels. *)
Definition facetKeys {R} (grouped : Grouped R) : gset string :=
  match grouped with
  | ByFacetItem byFacetItem => dom byFacetItem
  | ByFacetItemAndBreakdown byFacetItem => dom byFacetItem
  end.

(** The ids of the filters that have ids: those of the one active filter
    when there is exactly one. *)
Definition activeFilterIds (props : Props) : list Id :=
  (if hasIds (filter1Ids props) then default [] (filter1Ids props) else []) ++
  (if hasIds (filter2Ids props) then default [] (filter2Ids props) else []).

(** The composite key of a facet id [f] and a filter id [a], by the kinds of
    the facet and of the filter: the ids in the canonical dimension order,
    under the key builder of the two kinds. *)
Definition pairKey (facetKind filterKind : string) (f a : Id) : string :=
  if (facetKind =? "location")%string then
    if (filterKind =? "clientIsp")%string then makeLocationClientIspId f a
    else makeLocationTransitIspId f a
  else if (facetKind =? "clientIsp")%string then
    if (filterKind =? "location")%string then makeLocationClientIspId a f
    else makeClientIspTransitIspId f a
  else
    if (filterKind =? "location")%string then makeLocationTransitIspId a f
    else makeClientIspTransitIspId a f.

(** The key of the top store that [getTopFilter1] reads, and the one that
    [getTopFilter2] reads, by the facet type of the props. *)
Definition topFilter1Key (props : Props) : string :=
  if decide (facetType props = Some "clientIsp") then "locationsForClientIsps"
  else if decide (facetType props = Some "transitIsp") then "locationsForTransitIsps"
  else "clientIspsForLocations".

Definition topFilter2Key (props : Props) : string :=
  if decide (facetType props = Some "clientIsp") then "transitIspsForClientIsps"
  else if decide (facetType props = Some "transitIsp") then "clientIspsForTransitIsps"
  else "transitIspsForLocations".

(** The entity stores that the facet, filter1 and filter2 selectors read, by
    the facet type of the props. *)
Definition facetStore (props : Props) (locations clientIsps transitIsps : gmap string Entity)
    : gmap string Entity :=
  if decide (facetType props = Some "clientIsp") then clientIsps
  else if decide (facetType props = Some "transitIsp") then transitIsps
  else locations.

Definition filter1Store (props : Props) (locations clientIsps transitIsps : gmap string Entity)
    : gmap string Entity :=
  if decide (facetType props = Some "clientIsp") then locations
  else if decide (facetType props = Some "transitIsp") then locations
  else clientIsps.

Definition filter2Store (props : Props) (locations clientIsps transitIsps : gmap string Entity)
    : gmap string Entity :=
  if decide (facetType props = Some "clientIsp") then transitIsps
  else if decide (facetType props = Some "transitIsp") then clientIsps
  else transitIsps.

(** The group of a list, if it is not empty. *)
Definition nonEmpty {A} (l : list A) : option (list A) :=
  match l with
  | [] => None
  | _ => Some l
  end.

(** The keys [combineData] groups an item by. *)
Definition facetKeyOf (item : Item) : string := idToString (facetItemId (item_id item)).

Definition breakdownKeyOf (item : Item) : string :=
  JS.stringOf (idToString <$> breakdownByItemId (item_id item)).

(** What reading the given ids from a store gives, in the order of the ids,
    without the ids that read as undefined. *)
Definition entitiesOf (store : gmap string Entity) (ids : option (list Id))
    : list (JS.Value Entity) :=
  omap (λ id, JS.get store (idToString id)) (default [] ids).

(** The combined id of a facet id [f] and an id [a] of the one active filter,
    of type [filterType]: no breakdown, and the key of the two ids in
    canonical order. *)
Definition pairOf (props : Props) (filterType : FacetType) (f a : Id) : CombinedId :=
  {| facetItemId := f;
     breakdownByItemId := None;
     filterItemId := a;
     combined := pairKey (value (getFacetType props)) (value filterType) f a |}.

(** The combined id of a facet id [f], a filter1 id [a] and a filter2 id
    [b]: the breakdown id is that of the filter named by [breakdownBy], the
    filter id that of the other filter; when [breakdownBy] names neither, they
    are the transitIsp id and the id of the first filter in canonical
    order. *)
Definition tripleOf (props : Props) (f a b : Id) : CombinedId :=
  {| facetItemId := f;
     breakdownByItemId :=
       Some (if decide (breakdownBy props = Some "filter1") then a
             else if decide (breakdownBy props = Some "filter2") then b
             else transitIspIdOf props f a b);
     filterItemId :=
       if decide (breakdownBy props = Some "filter1") then b
       else if decide (breakdownBy props = Some "filter2") then a
       else firstFilterIdOf props f a b;
     combined := tripleKey props f a b |}.

(** The cross product of the id lists of the active dimensions, in the
    claim's words: one combined id for each choice of a facet id and of an id
    of every active filter, as often as the id lists repeat the ids. *)
Definition combinations (props : Props) : list CombinedId :=
  let facetIds := default [] (facetItemIds props) in
  match activeFilterTypes props with
  | [] => []
  | [filterType] =>
      f ← facetIds; a ← activeFilterIds props; [pairOf props filterType f a]
  | _ =>
      f ← facetIds; a ← default [] (filter1Ids props); b ← default [] (filter2Ids props);
      [tripleOf props f a b]
  end.

(** Whether the top store has candidates under a key. *)
Definition hasCandidates (top : gmap string (Resource (list TopItem))) (key : string) : Prop :=
  ∃ entry, top !! key = Some entry ∧ default [] (res_data entry) ≠ [].

End Entities.

(** ** A concrete instance of the collaborators

    Integer ids, composite keys that join the decimal ids with an underscore,
    and series as lists of integers. It serves to run the selectors on
    concrete selections. *)

Definition sampleKey2 (a b : Z) : string := (pretty a +:+ "_" +:+ pretty b)%string.
Definition sampleKey3 (a b c : Z) : string :=
  (pretty a +:+ "_" +:+ pretty b +:+ "_" +:+ pretty c)%string.

(** The built-in objects of the sample run-time, one step away from
    [Object.prototype]. [Object.prototype] itself (under ["__proto__"]) has
    its members but no prototype. Every other member is a strict function:
    it has a length, a name, the methods of functions and the members it
    inherits, and reading its [caller] or [arguments] throws. [Object] (under
    ["constructor"]) has its prototype and its static methods as well. *)
Definition sampleBuiltinProperty (path : list string) (key : string) : JS.Outcome :=
  if decide (path = ["__proto__"]) then
    if bool_decide (key ∈ JS.objectPrototype) && negb (key =? "__proto__")%string
    then JS.Present else JS.Missing
  else if bool_decide (key ∈ ["caller"; "arguments"]) then JS.Throws
  else if bool_decide (key ∈ JS.objectPrototype ++ ["length"; "name"; "apply"; "bind"; "call"])
  then JS.Present
  else if bool_decide (path = ["constructor"])
          && bool_decide (key ∈ [ "prototype"; "assign"; "create"; "defineProperties";
                                  "defineProperty"; "entries"; "freeze";
                                  "getOwnPropertyDescriptor"; "getOwnPropertyNames";
                                  "getOwnPropertySymbols"; "getPrototypeOf"; "is";
                                  "isExtensible"; "isFrozen"; "isSealed"; "keys";
                                  "preventExtensions"; "seal"; "setPrototypeOf"; "values" ])
  then JS.Present
  else JS.Missing.

Definition sampleCollaborators : Collaborators := {|
  Id := Z;
  idToString := pretty;
  makeLocationClientIspId := sampleKey2;
  makeLocationTransitIspId := sampleKey2;
  makeClientIspTransitIspId := sampleKey2;
  makeLocationClientIspTransitIspId := sampleKey3;
  TimeSeriesData := list Z;
  HourlyData := list Z;
  Counts := nat;
  Wrangled := list Z;
  Metric := string;
  computeTimeSeriesCounts := λ _ data _, length data;
  wrangleHourly := λ data _, default [] data;
  locationIdKey := "id";
  clientIspIdKey := "id";
  transitIspIdKey := "id";
  builtinProperty := sampleBuiltinProperty;
|}.

(** An id list of the sample props: undefined or an array. *)
Definition sampleIds (ids : option (list Z)) : JS.Nullable (list Z) :=
  match ids with
  | Some ids => JS.Defined ids
  | None => JS.Undefined
  end.

Definition sampleProps (facetType : option string) (facetItemIds filter1Ids filter2Ids : option (list Z))
    (breakdownBy : option string) : @Props sampleCollaborators :=
  @Build_Props sampleCollaborators facetType (sampleIds facetItemIds) (sampleIds filter1Ids)
    (sampleIds filter2Ids) breakdownBy.

Definition sampleCombinedId (facetItemId : Z) (breakdownByItemId : option Z)
    (filterItemId : Z) (combined : string) : @CombinedId sampleCollaborators :=
  @Build_CombinedId sampleCollaborators facetItemId breakdownByItemId filterItemId combined.

Definition sampleRecord (timeSeriesStatus : Status) (timeSeriesData : option (list Z))
    : @CombinedRecord sampleCollaborators :=
  @Build_CombinedRecord sampleCollaborators
    (@Build_Time sampleCollaborators
       {| res_status := timeSeriesStatus; res_data := timeSeriesData |}
       {| res_status := StatusSuccess; res_data := Some [] |}).

Definition sampleItem (id : @CombinedId sampleCollaborators)
    (data : @CombinedRecord sampleCollaborators) : @Item sampleCollaborators :=
  @Build_Item sampleCollaborators id data.

Definition sampleJoined (id : @CombinedId sampleCollaborators)
    (data : JS.Value (@CombinedRecord sampleCollaborators)) : @JoinedItem sampleCollaborators :=
  @Build_JoinedItem sampleCollaborators id data.

(** A group of three joined items, the second of which failed to load. *)
Definition sampleGroup : list (@Item sampleCollaborators) :=
  [ sampleItem (sampleCombinedId 1 None 10 "1_10") (sampleRecord StatusSuccess (Some [5; 6]));
    sampleItem (sampleCombinedId 1 None 20 "1_20") (sampleRecord StatusError None);
    sampleItem (sampleCombinedId 1 None 30 "1_30") (sampleRecord StatusFetching None) ].

(** Twenty-five ranked client ISPs for the selected locations, three of them
    selected already. *)
Definition sampleCandidates : list (@TopItem sampleCollaborators) :=
  (λ i : Z, ({[ "id" := i ]} : gmap string Z)) <$> seqZ 1 25.

Definition sampleSelected : JS.Nullable (list Z) := JS.Defined [3; 7; 11].

Definition sampleTop : gmap string (Resource (list (@TopItem sampleCollaborators))) :=
  {[ "clientIspsForLocations" :=
       {| res_status := StatusSuccess; res_data := Some sampleCandidates |} ]}.

(** The store of the pairs of a location and a client ISP: two records, the
    second of which failed to load. *)
Definition sampleLocationClientIsps : gmap string (@CombinedRecord sampleCollaborators) :=
  {[ "1_10" := sampleRecord StatusSuccess (Some [5; 6]);
     "1_20" := sampleRecord StatusError None ]}.

(** The facet location with one id and the filter clientIsp with two. *)
Definition sampleTwoDimensions : @Props sampleCollaborators :=
  sampleProps (Some "location") (Some [1]) (Some [10; 20]) None None.

(** The facet clientIsp and both filters, without a breakdown. *)
Definition sampleThreeDimensions : @Props sampleCollaborators :=
  sampleProps (Some "clientIsp") (Some [1]) (Some [10; 20]) (Some [7; 8]) None.

(** A second instance, with the ids as the URL gives them: strings, which
    are their own property keys. *)
Definition stringCollaborators : Collaborators := {|
  Id := string;
  idToString := id;
  makeLocationClientIspId := λ a b, (a +:+ "_" +:+ b)%string;
  makeLocationTransitIspId := λ a b, (a +:+ "_" +:+ b)%string;
  makeClientIspTransitIspId := λ a b, (a +:+ "_" +:+ b)%string;
  makeLocationClientIspTransitIspId := λ a b c, (a +:+ "_" +:+ b +:+ "_" +:+ c)%string;
  TimeSeriesData := list Z;
  HourlyData := list Z;
  Counts := nat;
  Wrangled := list Z;
  Metric := string;
  computeTimeSeriesCounts := λ _ data _, length data;
  wrangleHourly := λ data _, default [] data;
  locationIdKey := "id";
  clientIspIdKey := "id";
  transitIspIdKey := "id";
  builtinProperty := sampleBuiltinProperty;
|}.

(** A location with a time series and hourly data, both loaded. *)
Definition sampleLocation (id : string) : @Entity stringCollaborators :=
  @Build_Entity stringCollaborators id
    (@Build_EntityTime stringCollaborators
       (Some {| res_status := StatusSuccess; res_data := Some [5; 6] |})
       (Some {| res_status := StatusSuccess; res_data := Some [7] |})).

(** The store of the locations, with one location. *)
Definition sampleLocations : gmap string (@Entity stringCollaborators) :=
  {[ "nauswaseattle" := sampleLocation "nauswaseattle" ]}.

(** The facet location with two ids from the URL: the one of the store, and
    a name of [Object.prototype]. *)
Definition sampleInheritedFacet : @Props stringCollaborators :=
  @Build_Props stringCollaborators (Some "location")
    (JS.Defined ["nauswaseattle"; "constructor"]) JS.Undefined JS.Undefined None.

(** ** Properties *)

Section Properties.
Context `{Collaborators}.

(** *** The JavaScript primitives *)

Lemma insert_perm {A} (cmp : A → A → Z) (x : A) (l : list A) :
  JS.insert cmp x l ≡ₚ x :: l.
Proof.
  induction l as [|y l IH]; [done|].
  cbn. destruct (cmp x y <=? 0); [done|]. by rewrite IH, Permutation_swap.
Qed.

Lemma sort_perm {A} (cmp : A → A → Z) (l : list A) : JS.sort cmp l ≡ₚ l.
Proof.
  induction l as [|x l IH]; [done|].
  unfold JS.sort in *. cbn. by rewrite insert_perm, IH.
Qed.

Section sort_by_key.
Context {A : Type} (key : A → Z) (cmp : A → A → Z).

Let le_key (a b : A) : Prop := key a ≤ key b.

Local Instance le_key_trans : Transitive le_key.
Proof. unfold le_key. intros a b c. lia. Qed.

Lemma insert_sorted (x : A) (l : list A) :
  (∀ b, b ∈ l → cmp x b = key x - key b) →
  StronglySorted le_key l → StronglySorted le_key (JS.insert cmp x l).
Proof.
  intros Hcmp Hsorted. induction Hsorted as [|y l Hsorted IH Hy]; cbn.
  { repeat constructor. }
  rewrite (Hcmp y) by left.
  destruct (Z.leb_spec (key x - key y) 0) as [Hle|Hgt].
  - constructor; [by constructor|].
    constructor; [unfold le_key; lia|].
    eapply Forall_impl; [exact Hy|]. unfold le_key. intros; lia.
  - constructor.
    + apply IH. intros b Hb. apply Hcmp. by right.
    + rewrite insert_perm. constructor; [unfold le_key; lia|done].
Qed.

Lemma sort_sorted (l : list A) :
  (∀ a b, a ∈ l → b ∈ l → cmp a b = key a - key b) →
  StronglySorted le_key (JS.sort cmp l).
Proof.
  induction l as [|x l IH]; intros Hcmp; [constructor|].
  unfold JS.sort in *. cbn. apply insert_sorted.
  - intros b Hb. apply Hcmp; [left|right].
    pose proof (sort_perm cmp l) as Hperm. unfold JS.sort in Hperm. by rewrite <- Hperm.
  - apply IH. intros a b Ha Hb. apply Hcmp; by right.
Qed.

(** With pairwise distinct keys the sorted array is unique: every array that
    holds the same elements in ascending order of the keys is the one that
    [JS.sort] returns, whatever algorithm produced it. *)
Lemma sort_unique (l l' : list A) :
  (∀ a b, a ∈ l → b ∈ l → cmp a b = key a - key b) →
  NoDup (key <$> l) →
  l' ≡ₚ l →
  StronglySorted le_key l' →
  l' = JS.sort cmp l.
Proof.
  intros Hcmp Hnodup Hperm Hsorted.
  apply (StronglySorted_unique_strong le_key); [|done|by apply sort_sorted|].
  - intros a b Ha Hb Hab Hba. rewrite Hperm in Ha. rewrite sort_perm in Hb.
    assert (key a = key b) as Hkey by (unfold le_key in *; lia).
    clear -Hnodup Ha Hb Hkey. induction l as [|c l IH]; [by apply elem_of_nil in Ha|].
    rewrite fmap_cons in Hnodup. apply NoDup_cons in Hnodup as [Hc Hnodup].
    apply elem_of_cons in Ha as [->|Ha]; apply elem_of_cons in Hb as [->|Hb];
      [done| | |by apply IH].
    + exfalso. apply Hc. rewrite Hkey. by apply list_elem_of_fmap_2.
    + exfalso. apply Hc. rewrite <- Hkey. by apply list_elem_of_fmap_2.
  - by rewrite Hperm, sort_perm.
Qed.

End sort_by_key.

Lemma nestObject_snoc {A} (key : A → string) (items : list A) (x : A) :
  JS.nestObject key (items ++ [x]) =
  <[key x := default [] (JS.nestObject key items !! key x) ++ [x]]> (JS.nestObject key items).
Proof. unfold JS.nestObject. by rewrite foldl_app. Qed.

(** The group of a key holds the items of that key, in their order; a key
    without items has no group. *)
Lemma nestObject_lookup {A} (key : A → string) (items : list A) (k : string) :
  JS.nestObject key items !! k =
    match filter (λ item, key item = k) items with
    | [] => None
    | group => Some group
    end.
Proof.
  induction items as [|x items IH] using rev_ind; [done|].
  rewrite nestObject_snoc, filter_app, filter_cons, filter_nil.
  destruct (decide (key x = k)) as [<-|Hne].
  - rewrite lookup_insert_eq, IH.
    by destruct (filter (λ item, key item = key x) items).
  - rewrite lookup_insert_ne, app_nil_r by done. apply IH.
Qed.

Lemma forEachPush_Some {A B} (l : list A) (body : A → option (list B)) (g : A → list B) :
  (∀ x, x ∈ l → body x = Some (g x)) → JS.forEachPush l body = Some (l ≫= g).
Proof.
  intros Hbody. unfold JS.forEachPush.
  assert (mapM body l = Some (g <$> l)) as ->.
  { apply mapM_Some. induction l as [|x l IH]; constructor.
    - apply Hbody. left.
    - apply IH. intros y Hy. apply Hbody. by right. }
  simpl. f_equal. clear Hbody.
  induction l as [|x l IH]; [done|]. simpl. by f_equal.
Qed.

Lemma length_bind_const {A B} (l : list A) (g : A → list B) (n : nat) :
  (∀ x, length (g x) = n) → length (l ≫= g) = (length l * n)%nat.
Proof.
  intros Hg. induction l as [|x l IH]; [done|].
  rewrite bind_cons, length_app, Hg, IH. done.
Qed.

(** *** The facet-type catalog *)

Lemma extractFacetType_location : extractFacetType (Some "location") = locationType.
Proof. reflexivity. Qed.

Lemma extractFacetType_clientIsp : extractFacetType (Some "clientIsp") = clientIspType.
Proof. reflexivity. Qed.

Lemma extractFacetType_transitIsp : extractFacetType (Some "transitIsp") = transitIspType.
Proof. reflexivity. Qed.

(** Every value but [clientIsp] and [transitIsp] resolves to [location]: the
    value [location] itself by lookup, any other by the fallback. *)
Lemma extractFacetType_cases (v : option string) :
  extractFacetType v =
    if decide (v = Some "clientIsp") then clientIspType
    else if decide (v = Some "transitIsp") then transitIspType
    else locationType.
Proof.
  unfold extractFacetType, facetTypes.
  cbn [List.find value locationType clientIspType transitIspType].
  repeat case_bool_decide; repeat case_decide; congruence.
Qed.

Lemma sortValues_location : sortValues !! "location" = Some 0.
Proof. by vm_compute. Qed.

Lemma sortValues_clientIsp : sortValues !! "clientIsp" = Some 1.
Proof. by vm_compute. Qed.

Lemma sortValues_transitIsp : sortValues !! "transitIsp" = Some 2.
Proof. by vm_compute. Qed.

(** *** Nested loops *)

Lemma elem_of_cross2 {B} (l1 l2 : list Id) (g : Id → Id → B) (e : B) :
  e ∈ (l1 ≫= λ x, g x <$> l2) ↔ ∃ x y, x ∈ l1 ∧ y ∈ l2 ∧ e = g x y.
Proof.
  rewrite list_elem_of_bind. split.
  - intros (x & He & Hx). apply list_elem_of_fmap in He as (y & -> & Hy). eauto.
  - intros (x & y & Hx & Hy & ->). exists x. split; [|done].
    apply list_elem_of_fmap. eauto.
Qed.

Lemma elem_of_cross3 {B} (l1 l2 l3 : list Id) (g : Id → Id → Id → B) (e : B) :
  e ∈ (l1 ≫= λ x, l2 ≫= λ y, g x y <$> l3) ↔
  ∃ x y z, x ∈ l1 ∧ y ∈ l2 ∧ z ∈ l3 ∧ e = g x y z.
Proof.
  rewrite list_elem_of_bind. split.
  - intros (x & He & Hx). apply elem_of_cross2 in He as (y & z & Hy & Hz & ->).
    exists x, y, z. done.
  - intros (x & y & z & Hx & Hy & Hz & ->). exists x. split; [|done].
    apply elem_of_cross2. eauto.
Qed.

Lemma length_cross2 {B} (l1 l2 : list Id) (g : Id → Id → B) :
  length (l1 ≫= λ x, g x <$> l2) = (length l1 * length l2)%nat.
Proof. apply length_bind_const. intros x. apply length_fmap. Qed.

Lemma length_cross3 {B} (l1 l2 l3 : list Id) (g : Id → Id → Id → B) :
  length (l1 ≫= λ x, l2 ≫= λ y, g x y <$> l3) =
  (length l1 * (length l2 * length l3))%nat.
Proof. apply length_bind_const. intros x. apply length_cross2. Qed.

(** *** The switch over the combined type *)

Lemma computeCombinedIds_location_clientIsp a b rest :
  computeCombinedIds "location-clientIsp" (a :: b :: rest) =
  Some (cross2 makeLocationClientIspId a b).
Proof. unfold computeCombinedIds, crossTwo. cbn. by apply forEachPush_Some. Qed.

Lemma computeCombinedIds_location_transitIsp a b rest :
  computeCombinedIds "location-transitIsp" (a :: b :: rest) =
  Some (cross2 makeLocationTransitIspId a b).
Proof. unfold computeCombinedIds, crossTwo. cbn. by apply forEachPush_Some. Qed.

Lemma computeCombinedIds_clientIsp_transitIsp a b rest :
  computeCombinedIds "clientIsp-transitIsp" (a :: b :: rest) =
  Some (cross2 makeClientIspTransitIspId a b).
Proof. unfold computeCombinedIds, crossTwo. cbn. by apply forEachPush_Some. Qed.

Lemma computeCombinedIds_three a b c rest :
  computeCombinedIds "location-clientIsp-transitIsp" (a :: b :: c :: rest) =
  Some (cross3 a b c).
Proof.
  unfold computeCombinedIds, crossThree. cbn. apply forEachPush_Some. intros x _.
  by apply forEachPush_Some.
Qed.

(** *** The sorted array of active dimensions *)

Lemma activeDimensions_eq t a t1 t2 f1 f2 bb :
  activeDimensions t a [t1; t2] f1 f2 bb =
  Some (facetDimension t a ::
        (if hasIds f1 then [filterDimension filter1 "filter1" t1 f1 bb] else []) ++
        (if hasIds f2 then [filterDimension filter2 "filter2" t2 f2 bb] else [])).
Proof. unfold activeDimensions. by destruct (hasIds f1), (hasIds f2). Qed.

Lemma compareSort_keys a b ka kb :
  dim_sort a = Some ka → dim_sort b = Some kb → compareSort a b = ka - kb.
Proof. intros Ha Hb. unfold compareSort. by rewrite Ha, Hb. Qed.

Lemma sort_one (a : Dimension) : JS.sort compareSort [a] = [a].
Proof. reflexivity. Qed.

Lemma sort_pair a b ka kb :
  dim_sort a = Some ka → dim_sort b = Some kb →
  JS.sort compareSort [a; b] = if ka <=? kb then [a; b] else [b; a].
Proof.
  intros Ha Hb. unfold JS.sort. cbn [foldr JS.insert].
  rewrite (compareSort_keys a b ka kb) by done.
  destruct (Z.leb_spec (ka - kb) 0), (Z.leb_spec ka kb); done || lia.
Qed.

Lemma sort_triple a b c ka kb kc :
  dim_sort a = Some ka → dim_sort b = Some kb → dim_sort c = Some kc → kb ≤ kc →
  JS.sort compareSort [a; b; c] =
    if ka <=? kb then [a; b; c] else if ka <=? kc then [b; a; c] else [b; c; a].
Proof.
  intros Ha Hb Hc Hbc. unfold JS.sort. cbn [foldr JS.insert].
  rewrite (compareSort_keys b c kb kc) by done.
  destruct (Z.leb_spec (kb - kc) 0); [|lia]. cbn [JS.insert].
  rewrite (compareSort_keys a b ka kb), (compareSort_keys a c ka kc) by done.
  destruct (Z.leb_spec (ka - kb) 0), (Z.leb_spec ka kb); try lia; [done|].
  destruct (Z.leb_spec (ka - kc) 0), (Z.leb_spec ka kc); done || lia.
Qed.

Lemma dim_sort_facet_location a : dim_sort (facetDimension locationType a) = Some 0.
Proof. apply sortValues_location. Qed.

Lemma dim_sort_facet_clientIsp a : dim_sort (facetDimension clientIspType a) = Some 1.
Proof. apply sortValues_clientIsp. Qed.

Lemma dim_sort_facet_transitIsp a : dim_sort (facetDimension transitIspType a) = Some 2.
Proof. apply sortValues_transitIsp. Qed.

Lemma dim_sort_filter_location r n a bb :
  dim_sort (filterDimension r n locationType a bb) = Some 0.
Proof. apply sortValues_location. Qed.

Lemma dim_sort_filter_clientIsp r n a bb :
  dim_sort (filterDimension r n clientIspType a bb) = Some 1.
Proof. apply sortValues_clientIsp. Qed.

Lemma dim_sort_filter_transitIsp r n a bb :
  dim_sort (filterDimension r n transitIspType a bb) = Some 2.
Proof. apply sortValues_transitIsp. Qed.

Create HintDb dims discriminated.
#[local] Hint Resolve dim_sort_facet_location dim_sort_facet_clientIsp
  dim_sort_facet_transitIsp dim_sort_filter_location dim_sort_filter_clientIsp
  dim_sort_filter_transitIsp : dims.

Ltac sort_dims :=
  first
    [ erewrite sort_triple by (eauto with dims || lia)
    | erewrite sort_pair by eauto with dims
    | rewrite sort_one ];
  repeat match goal with
  | |- context [(?x <=? ?y)] =>
      let b := eval vm_compute in (x <=? y) in change (x <=? y) with b; cbv iota
  end.

Ltac join_values :=
  repeat match goal with
  | |- context [JS.join "-" ?l] =>
      let r := eval vm_compute in (JS.join "-" l) in change (JS.join "-" l) with r
  end.

Ltac selection_result :=
  unfold getCombinedTypeAndIds_result; rewrite activeDimensions_eq;
  destruct (hasIds _), (hasIds _); cbn [mbind option_bind app];
  sort_dims; join_values;
  first
    [ rewrite computeCombinedIds_three
    | rewrite computeCombinedIds_location_clientIsp
    | rewrite computeCombinedIds_location_transitIsp
    | rewrite computeCombinedIds_clientIsp_transitIsp
    | idtac ];
  reflexivity.

(** *** The result of the cross product, facet by facet *)

Lemma result_location a f1 f2 bb :
  getCombinedTypeAndIds_result locationType a [clientIspType; transitIspType] f1 f2 bb =
  let L := facetDimension locationType a in
  let C := filterDimension filter1 "filter1" clientIspType f1 bb in
  let T := filterDimension filter2 "filter2" transitIspType f2 bb in
  Some (match hasIds f1, hasIds f2 with
        | true, true =>
            {| combinedType := "location-clientIsp-transitIsp"; combinedIds := cross3 L C T |}
        | true, false =>
            {| combinedType := "location-clientIsp";
               combinedIds := cross2 makeLocationClientIspId L C |}
        | false, true =>
            {| combinedType := "location-transitIsp";
               combinedIds := cross2 makeLocationTransitIspId L T |}
        | false, false => {| combinedType := "location"; combinedIds := [] |}
        end).
Proof. selection_result. Qed.

Lemma result_clientIsp a f1 f2 bb :
  getCombinedTypeAndIds_result clientIspType a [locationType; transitIspType] f1 f2 bb =
  let L := filterDimension filter1 "filter1" locationType f1 bb in
  let C := facetDimension clientIspType a in
  let T := filterDimension filter2 "filter2" transitIspType f2 bb in
  Some (match hasIds f1, hasIds f2 with
        | true, true =>
            {| combinedType := "location-clientIsp-transitIsp"; combinedIds := cross3 L C T |}
        | true, false =>
            {| combinedType := "location-clientIsp";
               combinedIds := cross2 makeLocationClientIspId L C |}
        | false, true =>
            {| combinedType := "clientIsp-transitIsp";
               combinedIds := cross2 makeClientIspTransitIspId C T |}
        | false, false => {| combinedType := "clientIsp"; combinedIds := [] |}
        end).
Proof. selection_result. Qed.

Lemma result_transitIsp a f1 f2 bb :
  getCombinedTypeAndIds_result transitIspType a [locationType; clientIspType] f1 f2 bb =
  let L := filterDimension filter1 "filter1" locationType f1 bb in
  let C := filterDimension filter2 "filter2" clientIspType f2 bb in
  let T := facetDimension transitIspType a in
  Some (match hasIds f1, hasIds f2 with
        | true, true =>
            {| combinedType := "location-clientIsp-transitIsp"; combinedIds := cross3 L C T |}
        | true, false =>
            {| combinedType := "location-transitIsp";
               combinedIds := cross2 makeLocationTransitIspId L T |}
        | false, true =>
            {| combinedType := "clientIsp-transitIsp";
               combinedIds := cross2 makeClientIspTransitIspId C T |}
        | false, false => {| combinedType := "transitIsp"; combinedIds := [] |}
        end).
Proof. selection_result. Qed.

(** *** The selection resolver *)

(** [getFilterTypes] dispatches on the facet type that [extractFacetType]
    resolved. *)
Lemma getFilterTypes_cases (props : Props) :
  getFilterTypes props =
    if decide (facetType props = Some "clientIsp") then [locationType; transitIspType]
    else if decide (facetType props = Some "transitIsp") then [locationType; clientIspType]
    else [clientIspType; transitIspType].
Proof.
  unfold getFilterTypes, getFacetType. rewrite extractFacetType_cases.
  by repeat destruct (decide _).
Qed.

(** C6, as the code has it: the facet types [clientIsp] and [transitIsp] give
    the two other types in the fixed order; every other value gives
    [clientIsp, transitIsp]: [location] itself, and every value outside the
    catalog (or undefined), which the fallback of [extractFacetType] replaces
    by [location]. The result is never the empty list. *)
Theorem getFilterTypes_by_facet (props : Props) :
  getFilterTypes props =
    (if decide (facetType props = Some "clientIsp") then [locationType; transitIspType]
     else if decide (facetType props = Some "transitIsp") then [locationType; clientIspType]
     else [clientIspType; transitIspType]) ∧
  getFilterTypes props ≠ [].
Proof.
  rewrite getFilterTypes_cases. split; [done|]. by repeat destruct (decide _).
Qed.

Lemma getCombinedTypeAndIds_by_facet (props : Props) :
  getCombinedTypeAndIds props =
    if decide (facetType props = Some "clientIsp") then
      getCombinedTypeAndIds_result clientIspType (facetItemIds props)
        [locationType; transitIspType] (filter1Ids props) (filter2Ids props) (breakdownBy props)
    else if decide (facetType props = Some "transitIsp") then
      getCombinedTypeAndIds_result transitIspType (facetItemIds props)
        [locationType; clientIspType] (filter1Ids props) (filter2Ids props) (breakdownBy props)
    else
      getCombinedTypeAndIds_result locationType (facetItemIds props)
        [clientIspType; transitIspType] (filter1Ids props) (filter2Ids props) (breakdownBy props).
Proof.
  unfold getCombinedTypeAndIds, getFacetType.
  rewrite getFilterTypes_cases, extractFacetType_cases.
  by repeat destruct (decide _).
Qed.

(** Flags and roles of concrete entries are closed booleans. *)
Ltac eval_flags :=
  repeat match goal with
  | |- context [bool_decide ?P] =>
      let b := eval vm_compute in (bool_decide P) in
      change (bool_decide P) with b; cbv iota
  end.

(** The flag of a filter, once [breakdownBy] is known to be ['filter1'],
    ['filter2'] or neither. *)
Ltac breakdown_cases props :=
  destruct (decide (breakdownBy props = Some "filter1")) as [Hbreakdown|Hnot1];
    [ rewrite ?Hbreakdown
    | rewrite ?(bool_decide_eq_false_2 _ Hnot1);
      destruct (decide (breakdownBy props = Some "filter2")) as [Hbreakdown|Hnot2];
        [ rewrite ?Hbreakdown | rewrite ?(bool_decide_eq_false_2 _ Hnot2) ] ].

(** The twelve shapes of a selection: the facet (three kinds) and which of
    the two filters have ids. *)
Ltac selection_cases props :=
  unfold activeDimensionKinds, activeIdLists, activeFilterTypes, tripleKey, transitIspIdOf,
    firstFilterIdOf, canonicalTriple, getFacetType in *;
  rewrite ?getCombinedTypeAndIds_by_facet, ?getFilterTypes_cases,
    ?extractFacetType_cases in *;
  destruct (decide (facetType props = Some "clientIsp"));
    [| destruct (decide (facetType props = Some "transitIsp"))];
  rewrite ?result_clientIsp, ?result_transitIsp, ?result_location in *; cbv zeta in *;
  destruct (hasIds (filter1Ids props)) eqn:?; destruct (hasIds (filter2Ids props)) eqn:?.

(** The selector never throws. *)
Lemma getCombinedTypeAndIds_total (props : Props) : is_Some (getCombinedTypeAndIds props).
Proof. selection_cases props; eauto. Qed.

(** The sort keys of the active dimensions of any selection are defined and
    pairwise distinct, so the sorted array [combined] does not depend on the
    sorting algorithm: it is the only ascending arrangement. *)
Lemma activeDimensions_keys (props : Props) :
  ∃ dims,
    activeDimensions (getFacetType props) (getFacetItemIds props) (getFilterTypes props)
      (getFilter1Ids props) (getFilter2Ids props) (getBreakdownBy props) = Some dims ∧
    Forall (λ d, dim_sort d = Some (sortKey d)) dims ∧
    NoDup (sortKey <$> dims).
Proof.
  unfold getFacetType. rewrite getFilterTypes_cases, extractFacetType_cases.
  destruct (decide (facetType props = Some "clientIsp"));
    [| destruct (decide (facetType props = Some "transitIsp"))];
    rewrite activeDimensions_eq;
    destruct (hasIds _), (hasIds _);
    (eexists; split; [reflexivity|]); cbn [app fmap list_fmap]; unfold sortKey;
    rewrite ?dim_sort_facet_location, ?dim_sort_facet_clientIsp, ?dim_sort_facet_transitIsp,
      ?dim_sort_filter_location, ?dim_sort_filter_clientIsp, ?dim_sort_filter_transitIsp;
    cbn [default from_option id].
  all: split;
    [ repeat constructor; auto with dims
    | repeat (apply NoDup_cons; split;
              [rewrite ?elem_of_cons, elem_of_nil; lia|]); apply NoDup_nil_2 ].
Qed.

Lemma sorted_dimensions_unique (props : Props) (dims sorted : list Dimension) :
  activeDimensions (getFacetType props) (getFacetItemIds props) (getFilterTypes props)
    (getFilter1Ids props) (getFilter2Ids props) (getBreakdownBy props) = Some dims →
  sorted ≡ₚ dims →
  StronglySorted (λ a b, sortKey a ≤ sortKey b) sorted →
  sorted = JS.sort compareSort dims.
Proof.
  intros Hdims Hperm Hsorted.
  destruct (activeDimensions_keys props) as (dims' & Hdims' & Hkeys & Hnodup).
  rewrite Hdims in Hdims'. injection Hdims' as <-.
  apply (sort_unique sortKey); [|done..].
  intros a b Ha Hb. rewrite Forall_forall in Hkeys.
  apply compareSort_keys; by apply Hkeys.
Qed.

(** *** The combined type *)

(** The combined type is the canonical name of the set of active kinds. *)
Lemma combinedType_canonical (props : Props) :
  combinedType <$> getCombinedTypeAndIds props =
  Some (canonicalType (list_to_set (activeDimensionKinds props))).
Proof.
  selection_cases props; cbn [fmap option_fmap option_map combinedType]; by vm_compute.
Qed.

(** C1: two selections with the same set of active dimension kinds have the
    same combined type, whichever role (facet, filter1, filter2) each kind
    plays in either selection, and whatever their id lists are. It holds for
    any number of active dimensions, in particular for two and for three. *)
Theorem combinedType_role_invariant (p q : Props) :
  list_to_set (activeDimensionKinds p) =@{gset string} list_to_set (activeDimensionKinds q) →
  ∃ t, combinedType <$> getCombinedTypeAndIds p = Some t ∧
       combinedType <$> getCombinedTypeAndIds q = Some t.
Proof.
  intros Hset. exists (canonicalType (list_to_set (activeDimensionKinds p))). split.
  - apply combinedType_canonical.
  - rewrite Hset. apply combinedType_canonical.
Qed.

(** C4, as the code has it: with the facet [location] and no filter that has
    ids, the combined type is the name of the facet alone, ['location'] (the
    facet entry is always part of [combined]), and there are no combined
    ids. *)
Theorem facet_only_selection (props : Props) :
  facetType props = Some "location" →
  hasIds (filter1Ids props) = false →
  hasIds (filter2Ids props) = false →
  getCombinedTypeAndIds props = Some {| combinedType := "location"; combinedIds := [] |}.
Proof.
  intros Hfacet Hf1 Hf2. selection_cases props; congruence.
Qed.

(** *** The size of the cross product *)

Lemma recognizedTypes_inv (t : string) :
  t ∈ recognizedTypes →
  t = "clientIsp-transitIsp" ∨ t = "location-clientIsp" ∨
  t = "location-clientIsp-transitIsp" ∨ t = "location-transitIsp".
Proof.
  unfold recognizedTypes. rewrite !elem_of_cons, elem_of_nil. tauto.
Qed.

(** Nested loops over lists, up to the order of the loops. *)
Lemma bind_app_perm {A B} (f g : A → list B) (l : list A) :
  (l ≫= λ x, f x ++ g x) ≡ₚ (l ≫= f) ++ (l ≫= g).
Proof.
  induction l as [|x l IH]; [done|]. rewrite !bind_cons, IH.
  rewrite <- !app_assoc. apply Permutation_app_head.
  rewrite !app_assoc. apply Permutation_app_tail, Permutation_app_comm.
Qed.

Lemma bind_nil_perm {A B} (l : list A) : (l ≫= λ _, @nil B) = [].
Proof. induction l as [|x l IH]; [done|]. by rewrite bind_cons, IH. Qed.

Lemma bind_swap_perm {A B C} (l1 : list A) (l2 : list B) (g : A → B → list C) :
  (l1 ≫= λ x, l2 ≫= λ y, g x y) ≡ₚ (l2 ≫= λ y, l1 ≫= λ x, g x y).
Proof.
  induction l1 as [|x l1 IH].
  - cbn. by rewrite bind_nil_perm.
  - rewrite bind_cons, IH.
    by rewrite <- (bind_app_perm (λ y, g x y) (λ y, l1 ≫= λ x, g x y)).
Qed.

Lemma bind_ext_perm {A B} (f g : A → list B) (l : list A) :
  (∀ x, f x ≡ₚ g x) → l ≫= f ≡ₚ l ≫= g.
Proof.
  intros Hfg. induction l as [|x l IH]; [done|]. by rewrite !bind_cons, IH, Hfg.
Qed.

Lemma fmap_bind_singleton {A B} (f : A → B) (l : list A) : f <$> l = l ≫= λ x, [f x].
Proof. induction l as [|x l IH]; [done|]. by rewrite fmap_cons, bind_cons, IH. Qed.

(** The entries of the two nested loops, by the place of the facet among the
    sorted dimensions. *)
Lemma cross2_eq (makeId : Id → Id → string) (X Y : Dimension) (e : Id → Id → CombinedId) :
  (∀ x y, pairEntry makeId X x y = e x y) →
  cross2 makeId X Y = (dim_ids X ≫= λ f, dim_ids Y ≫= λ a, [e f a]).
Proof.
  intros He. unfold cross2. apply list_bind_ext; [|done]. intros x.
  rewrite fmap_bind_singleton. apply list_bind_ext; [|done]. intros y. by rewrite He.
Qed.

Lemma cross2_facet_first (makeId : Id → Id → string) (X Y : Dimension)
    (e : Id → Id → CombinedId) :
  (∀ x y, pairEntry makeId X x y = e x y) →
  cross2 makeId X Y ≡ₚ (dim_ids X ≫= λ f, dim_ids Y ≫= λ a, [e f a]).
Proof. intros He. by rewrite (cross2_eq makeId X Y e). Qed.

Lemma cross2_facet_second (makeId : Id → Id → string) (X Y : Dimension)
    (e : Id → Id → CombinedId) :
  (∀ x y, pairEntry makeId X x y = e y x) →
  cross2 makeId X Y ≡ₚ (dim_ids Y ≫= λ f, dim_ids X ≫= λ a, [e f a]).
Proof.
  intros He. rewrite (cross2_eq makeId X Y (λ x y, e y x)) by done.
  apply (bind_swap_perm (dim_ids X) (dim_ids Y) (λ x y, [e y x])).
Qed.

(** The entries of the three nested loops, likewise. *)
Lemma cross3_eq (L C T : Dimension) (e : Id → Id → Id → CombinedId) :
  (∀ x y z, tripleEntry L C x y z = e x y z) →
  cross3 L C T = (dim_ids L ≫= λ f, dim_ids C ≫= λ a, dim_ids T ≫= λ b, [e f a b]).
Proof.
  intros He. unfold cross3. apply list_bind_ext; [|done]. intros x.
  apply list_bind_ext; [|done]. intros y.
  rewrite fmap_bind_singleton. apply list_bind_ext; [|done]. intros z. by rewrite He.
Qed.

Lemma cross3_facet_first (L C T : Dimension) (e : Id → Id → Id → CombinedId) :
  (∀ x y z, tripleEntry L C x y z = e x y z) →
  cross3 L C T ≡ₚ (dim_ids L ≫= λ f, dim_ids C ≫= λ a, dim_ids T ≫= λ b, [e f a b]).
Proof. intros He. by rewrite (cross3_eq L C T e). Qed.

Lemma cross3_facet_second (L C T : Dimension) (e : Id → Id → Id → CombinedId) :
  (∀ x y z, tripleEntry L C x y z = e y x z) →
  cross3 L C T ≡ₚ (dim_ids C ≫= λ f, dim_ids L ≫= λ a, dim_ids T ≫= λ b, [e f a b]).
Proof.
  intros He. rewrite (cross3_eq L C T (λ x y z, e y x z)) by done.
  apply (bind_swap_perm (dim_ids L) (dim_ids C) (λ x y, dim_ids T ≫= λ z, [e y x z])).
Qed.

Lemma cross3_facet_third (L C T : Dimension) (e : Id → Id → Id → CombinedId) :
  (∀ x y z, tripleEntry L C x y z = e z x y) →
  cross3 L C T ≡ₚ (dim_ids T ≫= λ f, dim_ids L ≫= λ a, dim_ids C ≫= λ b, [e f a b]).
Proof.
  intros He. rewrite (cross3_eq L C T (λ x y z, e z x y)) by done.
  etrans.
  - apply bind_ext_perm. intros x.
    apply (bind_swap_perm (dim_ids C) (dim_ids T) (λ y z, [e z x y])).
  - apply (bind_swap_perm (dim_ids L) (dim_ids T) (λ x z, dim_ids C ≫= λ y, [e z x y])).
Qed.

(** C3: when the combined type is one of the four recognized ones, the
    combined ids are the full cross product of the id lists of the active
    dimensions: up to their order, they are the combined ids of every choice
    of a facet id and of an id of every active filter, each as often as the
    id lists repeat its ids and no oftener; so they are as many as the
    product of the lengths of the id lists. *)
Theorem cross_product_size (props : Props) :
  (∃ t, combinedType <$> getCombinedTypeAndIds props = Some t ∧ t ∈ recognizedTypes) →
  ∃ r, getCombinedTypeAndIds props = Some r ∧
       length (combinedIds r) = foldr Nat.mul 1%nat (length <$> activeIdLists props) ∧
       combinedIds r ≡ₚ combinations props.
Proof.
  intros (t & Ht & Hrec). apply recognizedTypes_inv in Hrec.
  unfold combinations, activeFilterIds.
  selection_cases props; cbn [fmap option_fmap option_map combinedType] in Ht;
    injection Ht as <-.
  all: try (by destruct Hrec as [?|[?|[?|?]]]).
  all: eexists; (split; [reflexivity|]); cbn [combinedIds]; split;
    [ unfold cross2, cross3; rewrite ?length_cross3, ?length_cross2; cbn; lia |].
  all: cbn [lookup list_lookup option_list app]; rewrite ?app_nil_r.
  all: first
    [ apply cross3_facet_first | apply cross3_facet_second | apply cross3_facet_third
    | apply cross2_facet_first | apply cross2_facet_second ].
  all: intros; unfold tripleEntry, pairEntry, tripleOf, pairOf, pairKey, tripleKey,
    transitIspIdOf, firstFilterIdOf, canonicalTriple, getFacetType, filterDimension,
    facetDimension.
  all: rewrite ?extractFacetType_cases;
    repeat match goal with
    | Hd : ?P |- context [decide ?P] => rewrite (decide_True (P:=P)) by exact Hd
    | Hd : ¬ ?P |- context [decide ?P] => rewrite (decide_False (P:=P)) by exact Hd
    end.
  all: breakdown_cases props; cbn; eval_flags; reflexivity.
Qed.

(** *** The three-dimension case *)

(** The combined type is the three-way one exactly when both filters have
    ids. *)
Lemma three_dimensions_iff (props : Props) :
  combinedType <$> getCombinedTypeAndIds props = Some "location-clientIsp-transitIsp" ↔
  hasIds (filter1Ids props) = true ∧ hasIds (filter2Ids props) = true.
Proof.
  selection_cases props; cbn [fmap option_fmap option_map combinedType];
    split; (done || by intros [? ?]).
Qed.

(** It is one of the four recognized ones exactly when a filter has ids. *)
Lemma recognized_iff (props : Props) :
  (∃ t, combinedType <$> getCombinedTypeAndIds props = Some t ∧ t ∈ recognizedTypes) ↔
  hasIds (filter1Ids props) = true ∨ hasIds (filter2Ids props) = true.
Proof.
  split.
  - intros (t & Ht & Hrec). apply recognizedTypes_inv in Hrec.
    selection_cases props; cbn [fmap option_fmap option_map combinedType] in Ht;
      injection Ht as <-; auto; by destruct Hrec as [?|[?|[?|?]]].
  - intros Hactive.
    selection_cases props; cbn [fmap option_fmap option_map combinedType];
      try (by destruct Hactive);
      (eexists; split; [reflexivity|]); unfold recognizedTypes;
      rewrite !elem_of_cons; auto 6.
Qed.

(** C2: with both filters active and [breakdownBy = 'filter1'], the combined
    type is the three-way one and the combined ids are exactly the entries
    made of a facet id [f], a filter1 id [a] and a filter2 id [b], each with
    [breakdownByItemId] the filter1 id and [filterItemId] the filter2 id,
    under the composite key of the three ids in canonical order. (The flag of
    filter1 is [true], that of filter2 is [false] and the facet has none, so
    the cascades pick the flagged dimension and the explicitly unflagged one
    whatever the kinds of the three roles are.) *)
Theorem breakdown_by_filter1 (props : Props) :
  hasIds (filter1Ids props) = true →
  hasIds (filter2Ids props) = true →
  breakdownBy props = Some "filter1" →
  ∃ r, getCombinedTypeAndIds props = Some r ∧
       combinedType r = "location-clientIsp-transitIsp" ∧
       ∀ entry, entry ∈ combinedIds r ↔
         ∃ f a b,
           f ∈ default [] (facetItemIds props) ∧
           a ∈ default [] (filter1Ids props) ∧
           b ∈ default [] (filter2Ids props) ∧
           entry = {| facetItemId := f;
                  breakdownByItemId := Some a;
                  filterItemId := b;
                  combined := tripleKey props f a b |}.
Proof.
  intros Hf1 Hf2 Hbb.
  selection_cases props; try congruence.
  all: eexists; (split; [reflexivity|]); (split; [reflexivity|]); intros entry;
    cbn [combinedIds]; unfold cross3; rewrite elem_of_cross3;
    unfold tripleEntry, filterDimension, facetDimension; rewrite Hbb; cbn; eval_flags.
  all: split; [intros (x & y & z & ? & ? & ? & ->) | intros (f & a & b & ? & ? & ? & ->)];
    eauto 10.
Qed.

(** C10: with both filters active and [breakdownBy] neither ['filter1'] nor
    ['filter2'], every combination still gets a [breakdownByItemId], the id
    of its transitIsp dimension (even where transitIsp is the facet), and its
    [filterItemId] is the id of the filter dimension that comes first in the
    canonical order. *)
Theorem breakdown_by_neither (props : Props) :
  hasIds (filter1Ids props) = true →
  hasIds (filter2Ids props) = true →
  breakdownBy props ≠ Some "filter1" →
  breakdownBy props ≠ Some "filter2" →
  ∃ r, getCombinedTypeAndIds props = Some r ∧
       combinedType r = "location-clientIsp-transitIsp" ∧
       ∀ entry, entry ∈ combinedIds r ↔
         ∃ f a b,
           f ∈ default [] (facetItemIds props) ∧
           a ∈ default [] (filter1Ids props) ∧
           b ∈ default [] (filter2Ids props) ∧
           entry = {| facetItemId := f;
                      breakdownByItemId := Some (transitIspIdOf props f a b);
                      filterItemId := firstFilterIdOf props f a b;
                      combined := tripleKey props f a b |}.
Proof.
  intros Hf1 Hf2 Hbb1 Hbb2.
  selection_cases props; try congruence.
  all: eexists; (split; [reflexivity|]); (split; [reflexivity|]); intros entry;
    cbn [combinedIds]; unfold cross3; rewrite elem_of_cross3;
    unfold tripleEntry, filterDimension, facetDimension;
    rewrite !(bool_decide_eq_false_2 _ Hbb1), !(bool_decide_eq_false_2 _ Hbb2);
    cbn; eval_flags.
  all: split; [intros (x & y & z & ? & ? & ? & ->) | intros (f & a & b & ? & ? & ? & ->)];
    eauto 10.
Qed.

(** *** The join against the stores *)

Lemma length_omap_le {A B} (f : A → option B) (l : list A) :
  (length (omap f l) ≤ length l)%nat.
Proof. induction l as [|x l IH]; [done|]. cbn. destruct (f x); cbn; lia. Qed.


Lemma get_Own {A} (obj : gmap string A) (key : string) (a : A) :
  JS.get obj key = Some (JS.Own a) ↔ obj !! key = Some a.
Proof.
  unfold JS.get. destruct (obj !! key) as [a'|].
  - split; by intros [= ->].
  - by case_bool_decide.
Qed.

Lemma get_Inherited {A} (obj : gmap string A) (key : string) (path : list string) :
  JS.get obj key = Some (JS.Inherited path) ↔
  obj !! key = None ∧ key ∈ JS.objectPrototype ∧ path = [key].
Proof.
  unfold JS.get. destruct (obj !! key) as [a'|].
  - split; [done|]. by intros [[=] _].
  - case_bool_decide; split.
    + by intros [= <-].
    + by intros (_ & _ & ->).
    + done.
    + by intros (_ & ? & _).
Qed.

Lemma sourceMap_get (combinedType : string)
    (lci lti citi lciti : gmap string CombinedRecord) :
  JS.get ({[ "location-clientIsp" := lci;
             "location-clientIsp-transitIsp" := lciti;
             "location-transitIsp" := lti;
             "clientIsp-transitIsp" := citi ]} : gmap string (gmap string CombinedRecord))
    combinedType
  = match storeFor combinedType lci lti citi lciti with
    | Some store => Some (JS.Own store)
    | None =>
        if bool_decide (combinedType ∈ JS.objectPrototype)
        then Some (JS.Inherited [combinedType]) else None
    end.
Proof.
  unfold JS.get, storeFor. rewrite !lookup_insert, lookup_singleton.
  repeat destruct (decide _); congruence.
Qed.

(** The two steps of the join, the reads and the filter, for any way of
    reading a key: it throws when a read throws, and otherwise keeps the
    combined ids whose key reads as a value, in their order. *)
Lemma mapM_reads (read : string → option (option (JS.Value CombinedRecord)))
    (ids : list CombinedId) :
  mapM (λ id, data ← read (combined id); Some (id, data)) ids
  = if decide (Exists (λ id, read (combined id) = None) ids) then None
    else Some ((λ id, (id, mjoin (read (combined id)))) <$> ids).
Proof.
  induction ids as [|id ids IH].
  - rewrite decide_False; [done|]. by intros ?%Exists_nil.
  - cbn [mapM]. destruct (read (combined id)) as [data|] eqn:Hdata;
      cbn [mbind option_bind].
    + rewrite IH. destruct (decide (Exists _ ids)) as [Hex|Hex].
      * by rewrite decide_True by (by right).
      * rewrite decide_False by (intros [?|?]%Exists_cons; congruence).
        cbn. by rewrite Hdata.
    + by rewrite decide_True by (by left).
Qed.

Lemma omap_pairs (read : CombinedId → option (JS.Value CombinedRecord))
    (ids : list CombinedId) :
  omap (λ d : CombinedId * option (JS.Value CombinedRecord),
          data ← d.2; Some {| joined_id := d.1; joined_data := data |})
       ((λ id, (id, read id)) <$> ids)
  = omap (λ id, Build_JoinedItem id <$> read id) ids.
Proof.
  induction ids as [|id ids IH]; [done|].
  cbn. rewrite <- IH. by destruct (read id).
Qed.

Lemma join_reads (read : string → option (option (JS.Value CombinedRecord)))
    (ids : list CombinedId) :
  (mapM (λ id, data ← read (combined id); Some (id, data)) ids
     ≫= λ mapped,
          Some (omap (λ d : CombinedId * option (JS.Value CombinedRecord),
                        data ← d.2; Some {| joined_id := d.1; joined_data := data |})
                     mapped))
  = if decide (Exists (λ id, read (combined id) = None) ids) then None
    else Some (omap (λ id, Build_JoinedItem id <$> mjoin (read (combined id))) ids).
Proof.
  rewrite mapM_reads. case_decide; [done|]. cbn [mbind option_bind].
  by rewrite (omap_pairs (λ id, mjoin (read (combined id)))).
Qed.

(** The join keeps the combined ids whose key reads as a value, in their
    order. *)
Lemma getCombinedItems_result_eq (cti : CombinedTypeAndIds)
    (lci lti citi lciti : gmap string CombinedRecord) :
  getCombinedItems_result cti lci lti citi lciti =
    match storeFor (combinedType cti) lci lti citi lciti with
    | Some store =>
        Some (omap (λ id, Build_JoinedItem id <$> JS.get store (combined id))
                   (combinedIds cti))
    | None =>
        if bool_decide (combinedType cti ∈ JS.objectPrototype) then
          if decide (Exists (λ id, builtinProperty [combinedType cti] (combined id)
                                   = JS.Throws) (combinedIds cti))
          then None
          else Some (omap (λ id, Build_JoinedItem id
                                   <$> mjoin (readSource (JS.Inherited [combinedType cti])
                                                (combined id)))
                          (combinedIds cti))
        else Some []
    end.
Proof.
  unfold getCombinedItems_result. rewrite sourceMap_get.
  destruct (storeFor _ _ _ _ _) as [store|].
  - rewrite (join_reads (readSource (JS.Own store))).
    rewrite decide_False; [done|]. rewrite Exists_exists. by intros (? & _ & [=]).
  - case_bool_decide; [|done].
    rewrite (join_reads (readSource (JS.Inherited [combinedType cti]))).
    apply decide_ext. rewrite !Exists_exists.
    split; intros (id & ? & Hid); exists id; (split; [done|]); revert Hid; cbn;
      by destruct (builtinProperty _ _).
Qed.


Lemma joined_data_read (read : string → option (JS.Value CombinedRecord))
    (ids : list CombinedId) (item : JoinedItem) :
  item ∈ omap (λ id, Build_JoinedItem id <$> read (combined id)) ids →
  joined_id item ∈ ids ∧ read (combined (joined_id item)) = Some (joined_data item).
Proof.
  intros (id & Hid & Hitem)%list_elem_of_omap.
  destruct (read (combined id)) as [data|] eqn:Hdata; [|done].
  by injection Hitem as <-.
Qed.


(** *** Grouping *)

Lemma combineData_items {R} (combine : list Item → Metric → R) (combinedType : string)
    (combinedItems : list Item) (viewMetric : Metric) :
  combinedItems ≠ [] →
  combineData combine combinedType (Some combinedItems) viewMetric =
  Some (if (combinedType =? "location-clientIsp-transitIsp")%string then
          ByFacetItemAndBreakdown
            ((λ byBreakdown, (λ items, combine items viewMetric) <$> byBreakdown) <$>
             (JS.nestObject
                (λ item, JS.stringOf (idToString <$> breakdownByItemId (item_id item))) <$>
              JS.nestObject (λ item, idToString (facetItemId (item_id item))) combinedItems))
        else
          ByFacetItem
            ((λ items, combine items viewMetric) <$>
             JS.nestObject (λ item, idToString (facetItemId (item_id item))) combinedItems)).
Proof.
  intros Hitems. unfold combineData. destruct combinedItems; [done|].
  by destruct (_ =? _)%string.
Qed.

(** C7: the grouping step returns undefined exactly when the combined items
    are undefined or empty, for any combined type, for the time series and
    for the hourly data alike; on any other input it returns an object. *)
Theorem combined_series_undefined_without_items (cti : CombinedTypeAndIds)
    (facetItemIds : option (list Id)) (combinedItems : option (list Item))
    (viewMetric : Metric) :
  (getCombinedTimeSeries_result cti facetItemIds combinedItems viewMetric = None ↔
     combinedItems = None ∨ combinedItems = Some []) ∧
  (getCombinedHourly_result cti facetItemIds combinedItems viewMetric = None ↔
     combinedItems = None ∨ combinedItems = Some []).
Proof.
  unfold getCombinedTimeSeries_result, getCombinedHourly_result, combineData.
  destruct combinedItems as [[|item items]|]; cbn.
  - split; split; auto.
  - split; (split; [|by intros [|]]); by destruct (_ =? _)%string.
  - split; split; auto.
Qed.

(** *** The combined status *)

Lemma combine_fold_statuses (items : list Item) (statuses : list Status)
    (data : list TimeSeriesData) :
  (foldl (λ (combined : list Status * list TimeSeriesData) timeSeriesObject,
            (combined.1 ++ [status timeSeriesObject],
             match res_data timeSeriesObject with
             | Some data => combined.2 ++ [data]
             | None => combined.2
             end))
         (statuses, data)
         ((λ item, timeSeries (time (item_data item))) <$> items)).1
  = statuses ++ (timeSeriesStatus <$> items).
Proof.
  revert statuses data. induction items as [|item items IH]; intros statuses data.
  - cbn. by rewrite app_nil_r.
  - cbn [fmap list_fmap foldl]. rewrite IH. cbn [fst]. by rewrite <- app_assoc.
Qed.

Lemma combineTimeSeries_statuses (itemsToCombine : list Item) :
  cts_statuses (combineTimeSeries itemsToCombine) = timeSeriesStatus <$> itemsToCombine.
Proof.
  unfold combineTimeSeries. cbn [cts_statuses]. apply combine_fold_statuses.
Qed.

Lemma combineTimeSeries_status (itemsToCombine : list Item) :
  cts_status (combineTimeSeries itemsToCombine) =
  statusAll (cts_statuses (combineTimeSeries itemsToCombine)).
Proof. reflexivity. Qed.

Lemma statusAll_error (statuses : list Status) :
  StatusError ∈ statuses → statusAll statuses = StatusError.
Proof. intros Herror. unfold statusAll. by rewrite decide_True. Qed.

Lemma combineTimeSeries_error (itemsToCombine : list Item) (item : Item) :
  item ∈ itemsToCombine →
  timeSeriesStatus item = StatusError →
  cts_status (combineTimeSeries itemsToCombine) = StatusError.
Proof.
  intros Hitem Herror. rewrite combineTimeSeries_status, combineTimeSeries_statuses.
  apply statusAll_error. rewrite <- Herror. by apply list_elem_of_fmap_2.
Qed.

(** C5: a group of joined items one of whose time series is in error has the
    combined status error, whatever the statuses of the other members. *)
Theorem combined_status_error (itemsToCombine : list Item) :
  (∃ item, item ∈ itemsToCombine ∧ timeSeriesStatus item = StatusError) →
  cts_status (combineTimeSeries itemsToCombine) = StatusError.
Proof.
  intros (item & Hitem & Herror). by apply (combineTimeSeries_error _ item).
Qed.

Lemma nestObject_group {A} (key : A → string) (items : list A) (item : A) :
  item ∈ items →
  ∃ group, JS.nestObject key items !! key item = Some group ∧ item ∈ group.
Proof.
  intros Hitem. rewrite nestObject_lookup.
  assert (item ∈ filter (λ i, key i = key item) items) as Hgroup
    by (by apply list_elem_of_filter).
  destruct (filter _ items) as [|i group]; [by apply elem_of_nil in Hgroup|eauto].
Qed.

(** The same through the grouping step: the group that [combineData] builds
    for an item in error, under its facet item (and, in the three-dimension
    case, its breakdown item), is in error. *)
Lemma grouped_status_error (cti : CombinedTypeAndIds) (facetItemIds : option (list Id))
    (combinedItems : list Item) (viewMetric : Metric) (item : Item) :
  item ∈ combinedItems →
  timeSeriesStatus item = StatusError →
  match getCombinedTimeSeries_result cti facetItemIds (Some combinedItems) viewMetric with
  | Some (ByFacetItem byFacetItem) =>
      ∃ group, byFacetItem !! idToString (facetItemId (item_id item)) = Some group ∧
               cts_status group = StatusError
  | Some (ByFacetItemAndBreakdown byFacetItem) =>
      ∃ byBreakdown group,
        byFacetItem !! idToString (facetItemId (item_id item)) = Some byBreakdown ∧
        byBreakdown !! JS.stringOf (idToString <$> breakdownByItemId (item_id item))
          = Some group ∧
        cts_status group = StatusError
  | None => False
  end.
Proof.
  intros Hitem Herror. unfold getCombinedTimeSeries_result.
  rewrite combineData_items by (intros ->; by apply elem_of_nil in Hitem).
  destruct (_ =? _)%string.
  - destruct (nestObject_group (λ i, idToString (facetItemId (item_id i))) _ _ Hitem)
      as (byFacet & HbyFacet & Hin).
    destruct (nestObject_group
                (λ i, JS.stringOf (idToString <$> breakdownByItemId (item_id i))) _ _ Hin)
      as (group & Hgroup & Hin').
    exists (combineTimeSeries <$>
              JS.nestObject
                (λ i, JS.stringOf (idToString <$> breakdownByItemId (item_id i))) byFacet),
      (combineTimeSeries group).
    split; [by rewrite !lookup_fmap, HbyFacet|].
    split; [by rewrite lookup_fmap, Hgroup|].
    by apply (combineTimeSeries_error _ item).
  - destruct (nestObject_group (λ i, idToString (facetItemId (item_id i))) _ _ Hitem)
      as (group & Hgroup & Hin).
    exists (combineTimeSeries group).
    split; [by rewrite lookup_fmap, Hgroup|].
    by apply (combineTimeSeries_error _ item).
Qed.

(** *** The top filters *)

Lemma includes_true (filterType : FacetType) (filterIds : option (list Id)) (d : TopItem) :
  includes (default [] filterIds) (d !! idKey filterType) = true ↔
  isSelected filterType filterIds d.
Proof.
  unfold includes, isSelected. destruct (d !! idKey filterType) as [i|].
  - apply bool_decide_eq_true.
  - done.
Qed.

(** A callback that does not throw filters as [filter] does. *)
Lemma filter_total {A} (keep : A → bool) (l : list A) :
  JS.filter (λ x, Some (keep x)) l = Some (List.filter keep l).
Proof.
  induction l as [|x l IH]; [done|]. cbn. rewrite IH. cbn. by destruct (keep x).
Qed.

Lemma filter_not_selected (filterType : FacetType) (filterIds : option (list Id))
    (topItems : list TopItem) :
  List.filter (λ d : TopItem, negb (includes (default [] filterIds) (d !! idKey filterType)))
    topItems
  = filter (λ d, ¬ isSelected filterType filterIds d) topItems.
Proof.
  induction topItems as [|d ds IH]; [done|].
  cbn [List.filter]. rewrite filter_cons, IH.
  destruct (includes _ _) eqn:Hincl; cbn [negb].
  - rewrite decide_False; [done|]. intros Hnot. by apply Hnot, includes_true.
  - rewrite decide_True; [done|]. intros Hsel%includes_true. congruence.
Qed.

(** [topFilter] on an entry of the top store: it throws when the selected
    ids are null and there is a candidate to test, and otherwise returns the
    candidates that are not selected, cut to twenty. *)
Lemma topFilter_entry (topState : gmap string (Resource (list TopItem)))
    (facetType filterType : FacetType) (filterIds : JS.Nullable (list Id))
    (entry : Resource (list TopItem)) :
  topState !! topKeyFromTypes facetType filterType = Some entry →
  topFilter topState facetType filterType filterIds =
    match filterIds, default [] (res_data entry) with
    | JS.Null, _ :: _ => None
    | _, _ =>
        Some {| tf_data := take 20 (filter (λ d, ¬ isSelected filterType filterIds d)
                                      (default [] (res_data entry)));
                tf_status := status entry |}
    end.
Proof.
  intros Hentry. unfold topFilter. rewrite Hentry. cbn [mbind option_bind].
  destruct filterIds as [| |ids]; cbn [JS.defaultParameter JS.nonNull mbind option_bind].
  - rewrite filter_total. cbn [mbind option_bind].
    by rewrite <- (filter_not_selected filterType None).
  - by destruct (default [] (res_data entry)).
  - rewrite filter_total. cbn [mbind option_bind].
    by rewrite <- (filter_not_selected filterType (Some ids)).
Qed.

(** C9: given the entry of the top store for the two types, and selected ids
    that are a list or undefined (or null, as long as the entry has no
    candidate to test them on), [topFilter] returns the candidates that are
    not selected yet, in their order, cut to the first twenty: no selected id
    is left, and there are at most twenty. *)
Theorem topFilter_removes_selected (topState : gmap string (Resource (list TopItem)))
    (facetType filterType : FacetType) (filterIds : JS.Nullable (list Id))
    (entry : Resource (list TopItem)) :
  topState !! topKeyFromTypes facetType filterType = Some entry →
  (filterIds = JS.Null → default [] (res_data entry) = []) →
  ∃ r, topFilter topState facetType filterType filterIds = Some r ∧
       tf_status r = status entry ∧
       tf_data r = take 20 (filter (λ d, ¬ isSelected filterType filterIds d)
                              (default [] (res_data entry))) ∧
       (length (tf_data r) ≤ 20)%nat ∧
       (∀ d, d ∈ tf_data r →
          d ∈ default [] (res_data entry) ∧ ¬ isSelected filterType filterIds d).
Proof.
  intros Hentry Hnull. rewrite (topFilter_entry _ _ _ _ entry) by done.
  assert (match filterIds, default [] (res_data entry) with
          | JS.Null, _ :: _ => @None TopFilter
          | _, _ =>
              Some {| tf_data := take 20 (filter (λ d, ¬ isSelected filterType filterIds d)
                                            (default [] (res_data entry)));
                      tf_status := status entry |}
          end
          = Some {| tf_data := take 20 (filter (λ d, ¬ isSelected filterType filterIds d)
                                          (default [] (res_data entry)));
                    tf_status := status entry |}) as ->.
  { destruct filterIds; try done. by rewrite Hnull. }
  eexists. split; [reflexivity|]. cbn [tf_status tf_data].
  split; [done|]. split; [done|]. split.
  - rewrite length_take. lia.
  - intros d Hd. apply elem_of_take in Hd as (i & Hd & _).
    apply list_elem_of_lookup_2 in Hd. apply list_elem_of_filter in Hd as [? ?]. done.
Qed.

(** ** Further properties of the selectors *)

(** *** The roles in the combined ids *)

Lemma hasIds_cons (ids : option (list Id)) :
  hasIds ids = true → ∃ x l, ids = Some (x :: l).
Proof. destruct ids as [[|x l]|]; [done| |done]. eauto. Qed.

Lemma hasIds_not_nil (ids : option (list Id)) : hasIds ids = true → default [] ids ≠ [].
Proof. intros (x & l & ->)%hasIds_cons. done. Qed.

Lemma combinedIds_roles (props : Props) (r : CombinedTypeAndIds) (entry : CombinedId) :
  getCombinedTypeAndIds props = Some r →
  entry ∈ combinedIds r →
  facetItemId entry ∈ default [] (facetItemIds props) ∧
  (filterItemId entry ∈ default [] (filter1Ids props) ∨
   filterItemId entry ∈ default [] (filter2Ids props)) ∧
  (∀ b, breakdownByItemId entry = Some b →
     b ∈ default [] (facetItemIds props) ∨
     b ∈ default [] (filter1Ids props) ∨
     b ∈ default [] (filter2Ids props)).
Proof.
  intros Hr Hentry.
  selection_cases props; injection Hr as <-; cbn [combinedIds] in Hentry;
    try (by apply elem_of_nil in Hentry);
    unfold cross2, cross3 in Hentry;
    first [ apply elem_of_cross3 in Hentry as (x & y & z & Hx & Hy & Hz & ->)
          | apply elem_of_cross2 in Hentry as (x & y & Hx & Hy & ->) ];
    unfold pairEntry, tripleEntry, filterDimension, facetDimension in *;
    cbn in Hx, Hy |- *; try (cbn in Hz);
    breakdown_cases props; eval_flags; cbn;
    (split; [done|]); (split; [by auto|]); intros b; intros [= <-] || intros [=]; auto.
Qed.

(** X1: in every combined id of every selection, [facetItemId] is one of the
    facet item ids and [filterItemId] is an id of one of the two filters,
    whatever [breakdownBy] is; a [breakdownByItemId] is one of the selected
    ids. *)
Theorem combined_ids_come_from_their_roles (props : Props) (r : CombinedTypeAndIds)
    (entry : CombinedId) :
  getCombinedTypeAndIds props = Some r →
  entry ∈ combinedIds r →
  facetItemId entry ∈ default [] (facetItemIds props) ∧
  (filterItemId entry ∈ default [] (filter1Ids props) ∨
   filterItemId entry ∈ default [] (filter2Ids props)) ∧
  (∀ b, breakdownByItemId entry = Some b →
     b ∈ default [] (facetItemIds props) ∨
     b ∈ default [] (filter1Ids props) ∨
     b ∈ default [] (filter2Ids props)).
Proof. apply combinedIds_roles. Qed.

(** X2: with exactly one filter that has ids, the combined ids are exactly
    the pairs of a facet id and an id of that filter, without a
    [breakdownByItemId], under the key of the two ids in canonical order. *)
Theorem two_dimensions_entries (props : Props) :
  hasIds (filter1Ids props) ≠ hasIds (filter2Ids props) →
  ∃ r filterType,
    getCombinedTypeAndIds props = Some r ∧
    activeFilterTypes props = [filterType] ∧
    ∀ entry, entry ∈ combinedIds r ↔
      ∃ f a,
        f ∈ default [] (facetItemIds props) ∧
        a ∈ activeFilterIds props ∧
        entry = {| facetItemId := f;
                   breakdownByItemId := None;
                   filterItemId := a;
                   combined := pairKey (value (getFacetType props)) (value filterType) f a |}.
Proof.
  intros Hone. unfold activeFilterIds.
  selection_cases props; try done.
  all: eexists _, _; (split; [reflexivity|]); (split; [reflexivity|]); intros entry;
    cbn [combinedIds]; unfold cross2; rewrite elem_of_cross2;
    unfold pairEntry, pairKey, filterDimension, facetDimension; cbn; eval_flags;
    rewrite ?app_nil_r.
  all: split; [intros (x & y & ? & ? & ->) | intros (f & a & ? & ? & ->)]; eauto 10.
Qed.

(** X3: with both filters active and [breakdownBy = 'filter2'], the roles of
    the two filters are exchanged with respect to ['filter1']:
    [breakdownByItemId] is the filter2 id and [filterItemId] the filter1
    id. *)
Theorem breakdown_by_filter2 (props : Props) :
  hasIds (filter1Ids props) = true →
  hasIds (filter2Ids props) = true →
  breakdownBy props = Some "filter2" →
  ∃ r, getCombinedTypeAndIds props = Some r ∧
       combinedType r = "location-clientIsp-transitIsp" ∧
       ∀ entry, entry ∈ combinedIds r ↔
         ∃ f a b,
           f ∈ default [] (facetItemIds props) ∧
           a ∈ default [] (filter1Ids props) ∧
           b ∈ default [] (filter2Ids props) ∧
           entry = {| facetItemId := f;
                      breakdownByItemId := Some b;
                      filterItemId := a;
                      combined := tripleKey props f a b |}.
Proof.
  intros Hf1 Hf2 Hbb.
  selection_cases props; try congruence.
  all: eexists; (split; [reflexivity|]); (split; [reflexivity|]); intros entry;
    cbn [combinedIds]; unfold cross3; rewrite elem_of_cross3;
    unfold tripleEntry, filterDimension, facetDimension; rewrite Hbb; cbn; eval_flags.
  all: split; [intros (x & y & z & ? & ? & ? & ->) | intros (f & a & b & ? & ? & ? & ->)];
    eauto 10.
Qed.

(** *** Selections without combinations *)

Lemma cross2_nil (makeId : Id → Id → string) (a b : Dimension) :
  cross2 makeId a b = [] ↔ dim_ids a = [] ∨ dim_ids b = [].
Proof.
  rewrite <- !length_zero_iff_nil. unfold cross2. rewrite length_cross2. lia.
Qed.

Lemma cross3_nil (a b c : Dimension) :
  cross3 a b c = [] ↔ dim_ids a = [] ∨ dim_ids b = [] ∨ dim_ids c = [].
Proof.
  rewrite <- !length_zero_iff_nil. unfold cross3. rewrite length_cross3. lia.
Qed.

(** X4: the selector returns, and there are no combined ids exactly when no
    filter has ids or the list of facet item ids is empty or undefined. *)
Theorem no_combinations_iff (props : Props) :
  ∃ r, getCombinedTypeAndIds props = Some r ∧
       (combinedIds r = [] ↔
          (hasIds (filter1Ids props) = false ∧ hasIds (filter2Ids props) = false) ∨
          default [] (facetItemIds props) = []).
Proof.
  selection_cases props; (eexists; split; [reflexivity|]); cbn [combinedIds];
    rewrite ?cross2_nil, ?cross3_nil; cbn [dim_ids facetDimension filterDimension];
    repeat match goal with
    | Hids : hasIds _ = true |- _ => apply hasIds_not_nil in Hids
    end;
    intuition congruence.
Qed.

(** *** The resolved facet and filter types *)

(** X5: [extractFacetType] always returns an entry of the catalog, finds
    every entry of the catalog by its value, and resolving the value of a
    resolved type changes nothing. *)
Theorem extractFacetType_resolves (v : option string) :
  extractFacetType v ∈ facetTypes ∧
  (∀ t, t ∈ facetTypes → extractFacetType (Some (value t)) = t) ∧
  extractFacetType (Some (value (extractFacetType v))) = extractFacetType v.
Proof.
  assert (∀ t, t ∈ facetTypes → extractFacetType (Some (value t)) = t) as Hfound.
  { intros t Ht. unfold facetTypes in Ht.
    rewrite !elem_of_cons, elem_of_nil in Ht. by destruct Ht as [->|[->|[->|[]]]]. }
  assert (extractFacetType v ∈ facetTypes) as Hin.
  { rewrite extractFacetType_cases. unfold facetTypes.
    repeat destruct (decide _); rewrite !elem_of_cons; auto. }
  auto.
Qed.

(** X6: for every props the facet type and the two filter types are the
    three entries of the catalog, each once, and filter1 comes before
    filter2 in the canonical order of the dimensions. *)
Theorem facet_and_filters_partition (props : Props) :
  ∃ filter1Type filter2Type k1 k2,
    getFilterTypes props = [filter1Type; filter2Type] ∧
    [getFacetType props; filter1Type; filter2Type] ≡ₚ facetTypes ∧
    sortValues !! value filter1Type = Some k1 ∧
    sortValues !! value filter2Type = Some k2 ∧
    k1 < k2.
Proof.
  rewrite getFilterTypes_cases. unfold getFacetType. rewrite extractFacetType_cases.
  unfold facetTypes.
  repeat destruct (decide _); eexists _, _, _, _; (split; [reflexivity|]);
    cbn [value locationType clientIspType transitIspType];
    rewrite ?sortValues_location, ?sortValues_clientIsp, ?sortValues_transitIsp;
    (split; [|split; [reflexivity|split; [reflexivity|lia]]]).
  - apply Permutation_swap.
  - etrans; [apply Permutation_swap|]. apply Permutation_skip, Permutation_swap.
  - done.
Qed.

(** *** The top filters *)

Lemma topFilter_None (topState : gmap string (Resource (list TopItem)))
    (facetType filterType : FacetType) (filterIds : JS.Nullable (list Id)) :
  topFilter topState facetType filterType filterIds = None ↔
  topState !! topKeyFromTypes facetType filterType = None ∨
  (filterIds = JS.Null ∧ hasCandidates topState (topKeyFromTypes facetType filterType)).
Proof.
  unfold hasCandidates.
  destruct (topState !! topKeyFromTypes facetType filterType) as [entry|] eqn:Hentry.
  - rewrite (topFilter_entry _ _ _ _ entry) by done. split.
    + destruct filterIds; try done.
      destruct (default [] (res_data entry)) as [|d ds] eqn:Hdata; [done|].
      intros _. right. split; [done|]. exists entry. by rewrite Hdata.
    + intros [[=]|[-> (entry' & [= <-] & Hdata)]].
      by destruct (default [] (res_data entry)).
  - split; [auto|]. intros _. unfold topFilter. by rewrite Hentry.
Qed.

(** The keys of the top store are no names of [Object.prototype]: reading
    them finds own properties only. *)
Lemma topKeyFromTypes_own (facetType filterType : FacetType) :
  topKeyFromTypes facetType filterType ∉ JS.objectPrototype.
Proof.
  unfold topKeyFromTypes.
  repeat destruct (_ =? _)%string; compute_done.
Qed.

(** X7: [getTopFilter1] and [getTopFilter2] throw exactly when the top store
    has no entry under the key of the facet type and of the filter type (a
    key of another dimension than the facet's), or when the filter ids are
    null, which the default of the parameter does not replace, and the entry
    has a candidate; the two keys differ. *)
Theorem getTopFilter_throws_iff (top : gmap string (Resource (list TopItem)))
    (props : Props) :
  (getTopFilter1 top props = None ↔
     top !! topFilter1Key props = None ∨
     (filter1Ids props = JS.Null ∧ hasCandidates top (topFilter1Key props))) ∧
  (getTopFilter2 top props = None ↔
     top !! topFilter2Key props = None ∨
     (filter2Ids props = JS.Null ∧ hasCandidates top (topFilter2Key props))) ∧
  topFilter1Key props ≠ topFilter2Key props.
Proof.
  unfold getTopFilter1, getTopFilter2, topFilter1Key, topFilter2Key, getFacetType,
    getFilter1Ids, getFilter2Ids.
  rewrite getFilterTypes_cases, extractFacetType_cases.
  repeat destruct (decide _); cbn [lookup list_lookup mbind option_bind];
    rewrite !topFilter_None; done.
Qed.

(** X8: over the catalog, the key of the top store determines the facet type
    and the filter type: no two pairs of types share a key. *)
Theorem topKeyFromTypes_inj (facetType1 filterType1 facetType2 filterType2 : FacetType) :
  facetType1 ∈ facetTypes → filterType1 ∈ facetTypes →
  facetType2 ∈ facetTypes → filterType2 ∈ facetTypes →
  topKeyFromTypes facetType1 filterType1 = topKeyFromTypes facetType2 filterType2 →
  facetType1 = facetType2 ∧ filterType1 = filterType2.
Proof.
  unfold facetTypes. rewrite !elem_of_cons, !elem_of_nil.
  intros [->|[->|[->|[]]]] [->|[->|[->|[]]]] [->|[->|[->|[]]]] [->|[->|[->|[]]]];
    by (vm_compute; intros [=]) || done.
Qed.

(** X9: when no candidate of the entry is selected (no selected ids, or
    candidates without the id key), and the selected ids are not null where
    there is a candidate, [topFilter] returns the first twenty candidates as
    they are. *)
Theorem topFilter_nothing_selected (topState : gmap string (Resource (list TopItem)))
    (facetType filterType : FacetType) (filterIds : JS.Nullable (list Id))
    (entry : Resource (list TopItem)) :
  topState !! topKeyFromTypes facetType filterType = Some entry →
  (filterIds = JS.Null → default [] (res_data entry) = []) →
  (∀ d, d ∈ default [] (res_data entry) → ¬ isSelected filterType filterIds d) →
  tf_data <$> topFilter topState facetType filterType filterIds
    = Some (take 20 (default [] (res_data entry))).
Proof.
  intros Hentry Hnull Hnone. rewrite (topFilter_entry _ _ _ _ entry) by done.
  assert (filter (λ d, ¬ isSelected filterType filterIds d) (default [] (res_data entry))
          = default [] (res_data entry)) as Hall.
  { clear Hnull. induction (default [] (res_data entry)) as [|d ds IH]; [done|].
    rewrite filter_cons, decide_True by (apply Hnone; left).
    f_equal. apply IH. intros d' Hd'. apply Hnone. by right. }
  rewrite Hall. destruct filterIds; try done.
  by rewrite Hnull.
Qed.

(** *** The entities of the selection *)

Lemma inflate_Some (items : gmap string Entity) (filterIds : list Id) :
  inflate (Some items) filterIds
  = Some (omap (λ id, JS.get items (idToString id)) filterIds).
Proof.
  unfold inflate. cbn [mbind option_bind].
  rewrite (proj2 (mapM_Some _ filterIds ((λ id, JS.get items (idToString id)) <$> filterIds))).
  - cbn. f_equal. induction filterIds as [|id ids IH]; [done|].
    cbn. rewrite IH. by destruct (JS.get items (idToString id)).
  - induction filterIds; by constructor.
Qed.

(** What [entitiesOf] holds: for each id, the entity that the store holds
    under the key of the id, or else the member of [Object.prototype] that
    the key names. *)
Lemma elem_of_entitiesOf (store : gmap string Entity) (ids : option (list Id))
    (v : JS.Value Entity) :
  v ∈ entitiesOf store ids ↔
  ∃ id, id ∈ default [] ids ∧
        match v with
        | JS.Own entity => store !! idToString id = Some entity
        | JS.Inherited path =>
            store !! idToString id = None ∧ idToString id ∈ JS.objectPrototype ∧
            path = [idToString id]
        end.
Proof.
  unfold entitiesOf. rewrite list_elem_of_omap.
  split; intros (id & Hid & Hv); exists id; (split; [done|]); destruct v as [entity|path].
  - by apply get_Own.
  - by apply get_Inherited.
  - by apply get_Own.
  - by apply get_Inherited.
Qed.

(** X10: [getFacetItems] returns what reading the facet item ids from the
    store of the resolved facet type gives, in the order of the ids (nothing
    when the ids are undefined or null); an unknown facet type reads the
    locations. An id gives the entity that the store holds under its key; an
    id that the store does not hold gives nothing, unless its key is a name
    of [Object.prototype]: then it gives that inherited member. There is at
    most one facet item per id. *)
Theorem getFacetItems_reads_facet_store (props : Props)
    (locations clientIsps transitIsps : gmap string Entity) :
  getFacetItems props locations clientIsps transitIsps
    = entitiesOf (facetStore props locations clientIsps transitIsps) (facetItemIds props) ∧
  (length (getFacetItems props locations clientIsps transitIsps)
     ≤ length (default [] (facetItemIds props)))%nat ∧
  (∀ v, v ∈ getFacetItems props locations clientIsps transitIsps ↔
     ∃ id, id ∈ default [] (facetItemIds props) ∧
           match v with
           | JS.Own entity =>
               facetStore props locations clientIsps transitIsps !! idToString id
                 = Some entity
           | JS.Inherited path =>
               facetStore props locations clientIsps transitIsps !! idToString id = None ∧
               idToString id ∈ JS.objectPrototype ∧
               path = [idToString id]
           end).
Proof.
  assert (getFacetItems props locations clientIsps transitIsps
          = entitiesOf (facetStore props locations clientIsps transitIsps)
              (facetItemIds props)) as ->.
  { unfold getFacetItems, getFacetItems_result, facetStore, entitiesOf, getFacetType,
      getFacetItemIds.
    rewrite extractFacetType_cases.
    repeat destruct (decide _); by destruct (facetItemIds props). }
  split; [done|]. split; [apply length_omap_le|]. intros v. apply elem_of_entitiesOf.
Qed.

(** X11: [getFilter1Items] and [getFilter2Items] never throw; they return
    what reading the filter ids from the stores of the two filter types
    gives, entities that the store holds or members that it inherits, as
    [getFacetItems] does; and the facet and the two filters read the three
    stores, each one. *)
Theorem getFilterItems_read_filter_stores (props : Props)
    (locations clientIsps transitIsps : gmap string Entity) :
  getFilter1Items props locations clientIsps transitIsps
    = Some (entitiesOf (filter1Store props locations clientIsps transitIsps)
              (filter1Ids props)) ∧
  getFilter2Items props locations clientIsps transitIsps
    = Some (entitiesOf (filter2Store props locations clientIsps transitIsps)
              (filter2Ids props)) ∧
  [ facetStore props locations clientIsps transitIsps;
    filter1Store props locations clientIsps transitIsps;
    filter2Store props locations clientIsps transitIsps ]
    ≡ₚ [locations; clientIsps; transitIsps] ∧
  (∀ store ids v, v ∈ entitiesOf store ids ↔
     ∃ id, id ∈ default [] ids ∧
           match v with
           | JS.Own entity => store !! idToString id = Some entity
           | JS.Inherited path =>
               store !! idToString id = None ∧ idToString id ∈ JS.objectPrototype ∧
               path = [idToString id]
           end).
Proof.
  split; [|split; [|split; [|apply elem_of_entitiesOf]]]; revert props;
    unfold getFilter1Items, getFilter2Items, getFilter1Items_result, getFilter2Items_result,
      facetStore, filter1Store, filter2Store, entitiesOf, getFilter1Ids, getFilter2Ids;
    intros props; rewrite ?getFilterTypes_cases;
    repeat destruct (decide _);
    cbn [lookup list_lookup mbind option_bind itemsOfType value locationType clientIspType
           transitIspType String.eqb Ascii.eqb Bool.eqb];
    try (by destruct (filter1Ids props); cbn [JS.nonNull]; rewrite ?inflate_Some);
    try (by destruct (filter2Ids props); cbn [JS.nonNull]; rewrite ?inflate_Some).
  - apply Permutation_swap.
  - etrans; [apply Permutation_swap|]. apply Permutation_skip, Permutation_swap.
Qed.

(** *** Statuses and data of a group *)

Lemma fold_statuses_data {A} (statusOf : A → Status) (dataOf : A → option TimeSeriesData)
    (l : list A) (statuses : list Status) (data : list TimeSeriesData) :
  foldl (λ (combined : list Status * list TimeSeriesData) x,
           (combined.1 ++ [statusOf x],
            match dataOf x with
            | Some d => combined.2 ++ [d]
            | None => combined.2
            end))
        (statuses, data) l
  = (statuses ++ (statusOf <$> l), data ++ omap dataOf l).
Proof.
  revert statuses data. induction l as [|x l IH]; intros statuses data.
  - cbn. by rewrite !app_nil_r.
  - cbn [foldl fmap list_fmap omap list_omap]. rewrite IH. cbn [fst snd].
    rewrite <- app_assoc. destruct (dataOf x); [by rewrite <- app_assoc|done].
Qed.

(** X12: [combineTimeSeries] collects one status per joined item, in order,
    and the data of the items that have data, in order: an item without data
    still contributes its status. *)
Theorem combineTimeSeries_fields (itemsToCombine : list Item) :
  cts_statuses (combineTimeSeries itemsToCombine) = timeSeriesStatus <$> itemsToCombine ∧
  cts_data (combineTimeSeries itemsToCombine)
    = omap (λ item, res_data (timeSeries (time (item_data item)))) itemsToCombine ∧
  (length (cts_data (combineTimeSeries itemsToCombine))
     ≤ length (cts_statuses (combineTimeSeries itemsToCombine)))%nat ∧
  length (cts_statuses (combineTimeSeries itemsToCombine)) = length itemsToCombine.
Proof.
  unfold combineTimeSeries. cbn [cts_statuses cts_data].
  rewrite (fold_statuses_data status res_data). cbn [fst snd app].
  assert (status <$> ((λ item, timeSeries (time (item_data item))) <$> itemsToCombine)
          = timeSeriesStatus <$> itemsToCombine) as ->
    by (by rewrite <- list_fmap_compose).
  assert (omap res_data ((λ item, timeSeries (time (item_data item))) <$> itemsToCombine)
          = omap (λ item, res_data (timeSeries (time (item_data item)))) itemsToCombine) as ->.
  { induction itemsToCombine as [|item items IH]; [done|]. cbn. by rewrite IH. }
  split; [done|]. split; [done|]. rewrite length_fmap. split; [apply length_omap_le|done].
Qed.

(** *** Time series and hourly data of the facet items *)

(** X13: [getFacetItemTimeSeries] has one entry for each facet item that has
    a time series, in order (the others are left out); the combined statuses
    are those of the entries, the combined data the data of the entries that
    have data, and an entry in error puts the combined status in error. *)
Theorem facet_item_time_series (facetItems : list Entity) :
  ∃ r,
    getFacetItemTimeSeries_result (Some facetItems) = Some r ∧
    tso_id <$> fts_timeSeries r
      = ent_id <$> filter (λ facetItem, is_Some (et_timeSeries (ent_time facetItem)))
                     facetItems ∧
    cts_statuses (fts_combined r) = tso_status <$> fts_timeSeries r ∧
    cts_data (fts_combined r) = omap tso_data (fts_timeSeries r) ∧
    (StatusError ∈ (tso_status <$> fts_timeSeries r) →
     cts_status (fts_combined r) = StatusError).
Proof.
  unfold getFacetItemTimeSeries_result. eexists. split; [reflexivity|].
  cbn [fts_timeSeries fts_combined cts_statuses cts_data cts_status].
  rewrite (fold_statuses_data tso_status tso_data). cbn [fst snd app].
  split; [|split; [done|split; [done|apply statusAll_error]]].
  induction facetItems as [|facetItem facetItems IH]; [done|].
  rewrite filter_cons. cbn [omap list_omap].
  destruct (et_timeSeries (ent_time facetItem)) as [timeSeries|]; cbn [mbind option_bind].
  - rewrite decide_True by eauto. cbn. by rewrite <- IH.
  - rewrite decide_False by (by intros [? [=]]). apply IH.
Qed.

(** X14: [getFacetItemHourly] throws exactly when a facet item has no hourly
    resource; when it returns, it returns one entry per facet item, with the
    ids of the facet items in order. *)
Theorem facet_item_hourly (facetItems : list Entity) (viewMetric : Metric) :
  (getFacetItemHourly_result (Some facetItems) viewMetric = None ↔
     ∃ facetItem, facetItem ∈ facetItems ∧ et_hourly (ent_time facetItem) = None) ∧
  (∀ result, getFacetItemHourly_result (Some facetItems) viewMetric = Some result →
     ∃ hourly, result = Some hourly ∧ ho_id <$> hourly = ent_id <$> facetItems).
Proof.
  unfold getFacetItemHourly_result. split.
  - rewrite fmap_None, mapM_None, Exists_exists. split.
    + intros (facetItem & Hin & Hnone). exists facetItem. split; [done|].
      by destruct (et_hourly (ent_time facetItem)).
    + intros (facetItem & Hin & Hnone). exists facetItem. split; [done|]. by rewrite Hnone.
  - intros result Hresult. apply fmap_Some in Hresult as (hourly & Hhourly & ->).
    exists hourly. split; [done|]. apply mapM_Some in Hhourly.
    induction Hhourly as [|facetItem entry facetItems hourly Hentry _ IH]; [done|].
    cbn. rewrite IH. f_equal.
    destruct (et_hourly (ent_time facetItem)); [|done]. by injection Hentry as <-.
Qed.

(** *** The groups of [combineData] *)

(** X15: given items, [combineData] builds two levels exactly for the
    three-way combined type. At one level, the entry of a facet key is the
    combination of the items of that key, in their order, and a key without
    items has no entry; at two levels, the same holds for the items of a
    facet key and a breakdown key. *)
Theorem combineData_groups {R} (combine : list Item → Metric → R) (combinedType : string)
    (combinedItems : list Item) (viewMetric : Metric) :
  combinedItems ≠ [] →
  ∃ grouped,
    combineData combine combinedType (Some combinedItems) viewMetric = Some grouped ∧
    match grouped with
    | ByFacetItem byFacetItem =>
        combinedType ≠ "location-clientIsp-transitIsp" ∧
        ∀ k, byFacetItem !! k
             = (λ items, combine items viewMetric)
               <$> nonEmpty (filter (λ item, facetKeyOf item = k) combinedItems)
    | ByFacetItemAndBreakdown byFacetItem =>
        combinedType = "location-clientIsp-transitIsp" ∧
        ∀ k k', (byFacetItem !! k ≫= λ byBreakdown, byBreakdown !! k')
                = (λ items, combine items viewMetric)
                  <$> nonEmpty (filter (λ item, breakdownKeyOf item = k')
                                  (filter (λ item, facetKeyOf item = k) combinedItems))
    end.
Proof.
  intros Hitems. rewrite combineData_items by done. eexists. split; [reflexivity|].
  destruct (String.eqb_spec combinedType "location-clientIsp-transitIsp") as [->|Hne].
  - split; [done|]. intros k k'. rewrite !lookup_fmap.
    fold facetKeyOf. rewrite (nestObject_lookup facetKeyOf).
    destruct (filter (λ item, facetKeyOf item = k) combinedItems) as [|item group]; [done|].
    cbn [fmap option_fmap option_map mbind option_bind].
    rewrite lookup_fmap. fold breakdownKeyOf. rewrite (nestObject_lookup breakdownKeyOf).
    by destruct (filter _ (item :: group)).
  - split; [done|]. intros k. rewrite lookup_fmap. fold facetKeyOf.
    rewrite (nestObject_lookup facetKeyOf). by destruct (filter _ combinedItems).
Qed.

(** *** The composed selectors *)

Lemma getCombinedItems_result_ids (cti : CombinedTypeAndIds)
    (lci lti citi lciti : gmap string CombinedRecord) (items : list JoinedItem)
    (item : JoinedItem) :
  getCombinedItems_result cti lci lti citi lciti = Some items →
  item ∈ items →
  joined_id item ∈ combinedIds cti.
Proof.
  rewrite getCombinedItems_result_eq.
  destruct (storeFor _ _ _ _ _) as [store|].
  - intros [= <-]. by intros [? _]%(joined_data_read (JS.get store)).
  - case_bool_decide; [|by intros [= <-] ?%elem_of_nil].
    case_decide; [done|]. intros [= <-].
    by intros [? _]%(joined_data_read
                       (λ key, mjoin (readSource (JS.Inherited [combinedType cti]) key))).
Qed.

Lemma getCombinedItems_result_nil (combinedType : string)
    (lci lti citi lciti : gmap string CombinedRecord) :
  getCombinedItems_result {| combinedType := combinedType; combinedIds := [] |}
    lci lti citi lciti = Some [].
Proof.
  rewrite getCombinedItems_result_eq. destruct (storeFor _ _ _ _ _); [done|].
  case_bool_decide; [|done]. rewrite decide_False; [done|]. by intros ?%Exists_nil.
Qed.

(** For a selection the source of the join is one of the four stores, or
    undefined. *)
Lemma getCombinedItems_selection (props : Props)
    (lci lti citi lciti : gmap string CombinedRecord) :
  ∃ r, getCombinedTypeAndIds props = Some r ∧
       (combinedType r ∉ JS.objectPrototype) ∧
       (is_Some (storeFor (combinedType r) lci lti citi lciti) ↔
          combinedType r ∈ recognizedTypes) ∧
       getCombinedItems props lci lti citi lciti
         = Some (match storeFor (combinedType r) lci lti citi lciti with
                 | Some store =>
                     omap (λ id, Build_JoinedItem id <$> JS.get store (combined id))
                          (combinedIds r)
                 | None => []
                 end).
Proof.
  unfold getCombinedItems.
  selection_cases props; cbn [mbind option_bind];
    (eexists; split; [reflexivity|]); rewrite getCombinedItems_result_eq;
    cbn [combinedType combinedIds];
    (split; [compute_done|]);
    repeat match goal with
    | |- context [storeFor ?t ?a ?b ?c ?d] =>
        let store := eval vm_compute in (storeFor t a b c d) in
        change (storeFor t a b c d) with store
    end;
    eval_flags; cbv iota; (split; [|done]).
  all: first
    [ by split; [intros _; compute_done | eauto]
    | split; [by intros [? [=]] | intros Hin; exfalso; revert Hin; compute_done] ].
Qed.

(** The records that the combiners read are those of the joined items. *)
Lemma itemRecords_ids (combinedItems : list JoinedItem) (items : list Item) (item : Item) :
  itemRecords combinedItems = Some items →
  item ∈ items →
  ∃ joined, joined ∈ combinedItems ∧ joined_id joined = item_id item ∧
            joined_data joined = JS.Own (item_data item).
Proof.
  unfold itemRecords. rewrite mapM_Some. intros Hall Hitem.
  induction Hall as [|joined item' combinedItems items Hjoined _ IH].
  - by apply elem_of_nil in Hitem.
  - apply elem_of_cons in Hitem as [->|Hitem].
    + exists joined. split; [left|].
      destruct (joined_data joined) as [data|path]; [|done].
      by injection Hjoined as <-.
    + destruct (IH Hitem) as (joined' & ? & ?). exists joined'. split; [by right|done].
Qed.

Lemma combineData_facetKeys {R} (combine : list Item → Metric → R) (combinedType : string)
    (combinedItems : list Item) (viewMetric : Metric) (grouped : Grouped R) (k : string) :
  combineData combine combinedType (Some combinedItems) viewMetric = Some grouped →
  k ∈ facetKeys grouped →
  ∃ item, item ∈ combinedItems ∧ facetKeyOf item = k.
Proof.
  intros Hgrouped Hk.
  assert (combinedItems ≠ []) as Hitems by (by intros ->).
  rewrite combineData_items in Hgrouped by done. injection Hgrouped as <-.
  assert (k ∈ dom (JS.nestObject facetKeyOf combinedItems)) as Hdom.
  { destruct (_ =? _)%string; cbn [facetKeys] in Hk; by rewrite !dom_fmap_L in Hk. }
  apply elem_of_dom in Hdom as [group Hgroup].
  rewrite nestObject_lookup in Hgroup.
  destruct (filter (λ item, facetKeyOf item = k) combinedItems) as [|item rest] eqn:Hfilter;
    [done|].
  assert (item ∈ filter (λ item, facetKeyOf item = k) combinedItems) as Hin
    by (rewrite Hfilter; left).
  apply list_elem_of_filter in Hin as [? ?]. eauto.
Qed.

(** X16: with no filter that has ids, the composed selectors return without
    an exception: there are no combined items, and the combined time series
    and the combined hourly data are undefined, whatever the stores hold. *)
Theorem facet_only_gives_no_series (props : Props)
    (lci lti citi lciti : gmap string CombinedRecord) (viewMetric : Metric) :
  hasIds (filter1Ids props) = false →
  hasIds (filter2Ids props) = false →
  getCombinedItems props lci lti citi lciti = Some [] ∧
  getCombinedTimeSeries props lci lti citi lciti viewMetric = Some None ∧
  getCombinedHourly props lci lti citi lciti viewMetric = Some None.
Proof.
  intros Hf1 Hf2. unfold getCombinedTimeSeries, getCombinedHourly, getCombinedItems.
  selection_cases props; try congruence;
    cbn [mbind option_bind]; by rewrite getCombinedItems_result_nil.
Qed.

(** X17: every facet key of the combined time series and of the combined
    hourly data of a selection is the key of one of its facet item ids. *)
Theorem grouped_keys_are_facet_ids (props : Props)
    (lci lti citi lciti : gmap string CombinedRecord) (viewMetric : Metric) (k : string) :
  (∃ grouped, getCombinedTimeSeries props lci lti citi lciti viewMetric = Some (Some grouped) ∧
              k ∈ facetKeys grouped) ∨
  (∃ grouped, getCombinedHourly props lci lti citi lciti viewMetric = Some (Some grouped) ∧
              k ∈ facetKeys grouped) →
  ∃ f, f ∈ default [] (facetItemIds props) ∧ k = idToString f.
Proof.
  unfold getCombinedTimeSeries, getCombinedHourly, getCombinedItems,
    getCombinedTimeSeries_result, getCombinedHourly_result.
  destruct (getCombinedTypeAndIds props) as [cti|] eqn:Hcti;
    [|by intros [(? & [=] & _)|(? & [=] & _)]].
  cbn [mbind option_bind].
  destruct (getCombinedItems_result cti lci lti citi lciti) as [joinedItems|] eqn:Hjoin;
    [|by intros [(? & [=] & _)|(? & [=] & _)]].
  cbn [mbind option_bind].
  destruct (itemRecords joinedItems)
    as [items|] eqn:Hitems; [|by intros [(? & [=] & _)|(? & [=] & _)]].
  cbn [mbind option_bind]. intros Hgroup.
  assert (∃ item, item ∈ items ∧ facetKeyOf item = k) as (item & Hitem & <-).
  { destruct Hgroup as [(grouped & Hgrouped & Hk)|(grouped & Hgrouped & Hk)];
      apply (inj Some) in Hgrouped;
      exact (combineData_facetKeys _ _ _ _ _ _ Hgrouped Hk). }
  destruct (itemRecords_ids _ _ _ Hitems Hitem) as (joined & Hjoined & Hid & _).
  exists (facetItemId (item_id item)). split; [|done].
  eapply combinedIds_roles; [exact Hcti|]. rewrite <- Hid.
  by eapply getCombinedItems_result_ids.
Qed.

(** X18: the join of a selection returns, and never returns more items than
    the product of the lengths of the id lists of the active dimensions. *)
Theorem combined_items_bounded (props : Props)
    (lci lti citi lciti : gmap string CombinedRecord) :
  ∃ items,
    getCombinedItems props lci lti citi lciti = Some items ∧
    (length items ≤ foldr Nat.mul 1%nat (length <$> activeIdLists props))%nat.
Proof.
  destruct (getCombinedItems_selection props lci lti citi lciti)
    as (r & Hr & _ & _ & ->).
  eexists. split; [reflexivity|].
  assert (length (combinedIds r) = foldr Nat.mul 1%nat (length <$> activeIdLists props)
          ∨ combinedIds r = []) as Hlength.
  { revert Hr. selection_cases props; intros [= <-]; cbn [combinedIds]; auto; left;
      unfold cross2, cross3; rewrite ?length_cross3, ?length_cross2; cbn; lia. }
  destruct (storeFor _ _ _ _ _) as [store|]; [|cbn; lia].
  etrans; [apply length_omap_le|]. destruct Hlength as [->| ->]; [done|cbn; lia].
Qed.

(** *** Inherited members in the composed selectors *)





(** X24: the combined type of a selection is never a name of
    [Object.prototype], so for a selection [sourceMap[combinedType]] is one
    of the four stores, exactly for the four recognized combined types, or
    undefined, and the join returns what reading the composite keys of the
    combined ids from that store gives. *)
Theorem selection_reads_a_store (props : Props)
    (lci lti citi lciti : gmap string CombinedRecord) :
  ∃ r, getCombinedTypeAndIds props = Some r ∧
       (combinedType r ∉ JS.objectPrototype) ∧
       (is_Some (storeFor (combinedType r) lci lti citi lciti) ↔
          combinedType r ∈ recognizedTypes) ∧
       getCombinedItems props lci lti citi lciti
         = Some (match storeFor (combinedType r) lci lti citi lciti with
                 | Some store =>
                     omap (λ id, Build_JoinedItem id <$> JS.get store (combined id))
                          (combinedIds r)
                 | None => []
                 end).
Proof. apply getCombinedItems_selection. Qed.



(** *** The ids given to the color utility *)



End Properties.

(** ** The properties on concrete selections *)

#[local] Existing Instance sampleCollaborators.

(** The scenario of the spec: the facet location with one id and the filter
    clientIsp with two. *)
Example location_with_two_clientIsps :
  getCombinedTypeAndIds (sampleProps (Some "location") (Some [1]) (Some [10; 20]) None None)
  = Some {| combinedType := "location-clientIsp";
            combinedIds := [ sampleCombinedId 1 None 10 "1_10";
                             sampleCombinedId 1 None 20 "1_20" ] |}.
Proof. reflexivity. Qed.

(** The same two dimensions with the roles exchanged: the locations are still
    the outer loop and the first half of the key. *)
Example clientIsp_with_two_locations :
  getCombinedTypeAndIds (sampleProps (Some "clientIsp") (Some [1]) (Some [10; 20]) None None)
  = Some {| combinedType := "location-clientIsp";
            combinedIds := [ sampleCombinedId 1 None 10 "10_1";
                             sampleCombinedId 1 None 20 "20_1" ] |}.
Proof. reflexivity. Qed.

Example three_dimensions_breakdown_by_filter2 :
  getCombinedTypeAndIds
    (sampleProps (Some "transitIsp") (Some [1]) (Some [10]) (Some [7; 8]) (Some "filter2"))
  = Some {| combinedType := "location-clientIsp-transitIsp";
            combinedIds := [ sampleCombinedId 1 (Some 7) 10 "10_7_1";
                             sampleCombinedId 1 (Some 8) 10 "10_8_1" ] |}.
Proof. reflexivity. Qed.

(** The join drops the combination that has no record in the store of the
    combined type, and every combination when the type has no store. *)
Example join_drops_missing_record :
  getCombinedItems_result
    {| combinedType := "location-clientIsp";
       combinedIds := [ sampleCombinedId 1 None 10 "1_10";
                        sampleCombinedId 1 None 20 "1_20" ] |}
    {[ "1_20" := sampleRecord StatusSuccess (Some [5]) ]} ∅ ∅ ∅
  = Some [ sampleJoined (sampleCombinedId 1 None 20 "1_20")
             (JS.Own (sampleRecord StatusSuccess (Some [5]))) ].
Proof. reflexivity. Qed.

(** A composite key that is a name of [Object.prototype] reads as the
    inherited member, which is not null: the combination is kept although
    the store has no record for it. *)
Example join_keeps_inherited_member :
  getCombinedItems_result
    {| combinedType := "location-clientIsp";
       combinedIds := [ sampleCombinedId 1 None 10 "toString";
                        sampleCombinedId 1 None 20 "1_20" ] |}
    ∅ ∅ ∅ ∅
  = Some [ sampleJoined (sampleCombinedId 1 None 10 "toString")
             (JS.Inherited ["toString"]) ].
Proof. reflexivity. Qed.

(** A combined type that is a name of [Object.prototype] makes the inherited
    function the source: the keys that are properties of it are kept, and a
    key whose read throws makes the join throw. *)
Example join_from_inherited_source :
  getCombinedItems_result
    {| combinedType := "constructor";
       combinedIds := [ sampleCombinedId 1 None 10 "keys";
                        sampleCombinedId 1 None 20 "1_20" ] |}
    ∅ ∅ ∅ ∅
  = Some [ sampleJoined (sampleCombinedId 1 None 10 "keys")
             (JS.Inherited ["constructor"; "keys"]) ] ∧
  getCombinedItems_result
    {| combinedType := "toString";
       combinedIds := [ sampleCombinedId 1 None 10 "caller" ] |}
    ∅ ∅ ∅ ∅
  = None.
Proof. split; reflexivity. Qed.

Example join_without_store :
  getCombinedItems_result
    {| combinedType := "location";
       combinedIds := [ sampleCombinedId 1 None 10 "1_10" ] |}
    {[ "1_10" := sampleRecord StatusSuccess (Some [5]) ]} ∅ ∅ ∅
  = Some [].
Proof. reflexivity. Qed.

(** The cross product of one location and two client ISPs, with the client
    ISP as the facet: the combinations of the claim, and the combined ids of
    the selector, which loops over the locations first. *)
Example combinations_of_two_dimensions :
  combinations (sampleProps (Some "clientIsp") (Some [1; 2]) (Some [10]) None None)
  = [ sampleCombinedId 1 None 10 "10_1"; sampleCombinedId 2 None 10 "10_2" ].
Proof. reflexivity. Qed.

(** The three items of the sample group share the facet item 1: one group,
    in error. *)
Example sample_group_combined :
  getCombinedTimeSeries_result {| combinedType := "location-clientIsp"; combinedIds := [] |}
    (Some [1]) (Some sampleGroup) "download"
  = Some (ByFacetItem
            {[ "1" := {| cts_statuses := [StatusSuccess; StatusError; StatusFetching];
                         cts_data := [[5; 6]];
                         cts_status := StatusError;
                         cts_counts := 1%nat |} ]}).
Proof. reflexivity. Qed.

(** Of twenty-five candidates with three selected, twenty-two are left and
    twenty are kept. *)
Example topFilter_keeps_twenty :
  length <$> (tf_data <$>
    topFilter sampleTop locationType clientIspType sampleSelected)
  = Some 20%nat.
Proof. reflexivity. Qed.

Lemma combinedType_role_invariant_witness :
  list_to_set (activeDimensionKinds
                 (sampleProps (Some "clientIsp") (Some [1]) (Some [10; 20]) None None))
    =@{gset string}
  list_to_set (activeDimensionKinds
                 (sampleProps (Some "location") (Some [10; 20]) (Some [1]) None None)) ∧
  ∃ t,
    combinedType <$> getCombinedTypeAndIds
      (sampleProps (Some "clientIsp") (Some [1]) (Some [10; 20]) None None) = Some t ∧
    combinedType <$> getCombinedTypeAndIds
      (sampleProps (Some "location") (Some [10; 20]) (Some [1]) None None) = Some t.
Proof.
  assert (list_to_set (activeDimensionKinds
                         (sampleProps (Some "clientIsp") (Some [1]) (Some [10; 20]) None None))
            =@{gset string}
          list_to_set (activeDimensionKinds
                         (sampleProps (Some "location") (Some [10; 20]) (Some [1]) None None)))
    as Hset by reflexivity.
  split; [exact Hset|].
  exact (combinedType_role_invariant _ _ Hset).
Defined.

Lemma breakdown_by_filter1_witness :
  ∃ r,
    getCombinedTypeAndIds
      (sampleProps (Some "transitIsp") (Some [1]) (Some [10; 20]) (Some [7; 8])
         (Some "filter1")) = Some r ∧
    combinedType r = "location-clientIsp-transitIsp" ∧
    ∀ entry, entry ∈ combinedIds r ↔
      ∃ f a b, f ∈ [1] ∧ a ∈ [10; 20] ∧ b ∈ [7; 8] ∧
        entry = sampleCombinedId f (Some a) b (sampleKey3 a b f).
Proof.
  exact (breakdown_by_filter1
           (sampleProps (Some "transitIsp") (Some [1]) (Some [10; 20]) (Some [7; 8])
              (Some "filter1"))
           eq_refl eq_refl eq_refl).
Defined.

Lemma breakdown_by_neither_witness :
  ∃ r,
    getCombinedTypeAndIds
      (sampleProps (Some "clientIsp") (Some [1]) (Some [10; 20]) (Some [7; 8]) None)
      = Some r ∧
    combinedType r = "location-clientIsp-transitIsp" ∧
    ∀ entry, entry ∈ combinedIds r ↔
      ∃ f a b, f ∈ [1] ∧ a ∈ [10; 20] ∧ b ∈ [7; 8] ∧
        entry = sampleCombinedId f (Some b) a (sampleKey3 a f b).
Proof.
  refine (breakdown_by_neither
            (sampleProps (Some "clientIsp") (Some [1]) (Some [10; 20]) (Some [7; 8]) None)
            eq_refl eq_refl _ _); discriminate.
Defined.

Lemma cross_product_size_witness :
  (∃ t,
     combinedType <$> getCombinedTypeAndIds
       (sampleProps (Some "location") (Some [1; 2]) (Some [10; 20; 30]) (Some [7; 8]) None)
       = Some t ∧ t ∈ recognizedTypes) ∧
  ∃ r,
    getCombinedTypeAndIds
      (sampleProps (Some "location") (Some [1; 2]) (Some [10; 20; 30]) (Some [7; 8]) None)
      = Some r ∧
    length (combinedIds r) = 12%nat ∧
    combinedIds r
      ≡ₚ combinations
           (sampleProps (Some "location") (Some [1; 2]) (Some [10; 20; 30]) (Some [7; 8])
              None).
Proof.
  assert (∃ t,
     combinedType <$> getCombinedTypeAndIds
       (sampleProps (Some "location") (Some [1; 2]) (Some [10; 20; 30]) (Some [7; 8]) None)
       = Some t ∧ t ∈ recognizedTypes) as Hrecognized.
  { exists "location-clientIsp-transitIsp". split; [reflexivity|].
    unfold recognizedTypes. do 2 apply list_elem_of_further. apply list_elem_of_here. }
  split; [exact Hrecognized|].
  exact (cross_product_size _ Hrecognized).
Defined.

(** The top filter of null filter ids: the default of the parameter does not
    replace them, and testing the first candidate throws; without candidates
    nothing is tested. *)
Example topFilter_null_throws :
  topFilter sampleTop locationType clientIspType JS.Null = None ∧
  topFilter {[ "clientIspsForLocations" := {| res_status := StatusFetching; res_data := None |} ]}
    locationType clientIspType JS.Null
  = Some {| tf_data := []; tf_status := StatusFetching |}.
Proof. split; reflexivity. Qed.

Lemma facet_only_selection_witness :
  getCombinedTypeAndIds (sampleProps (Some "location") (Some [1; 2]) None None None)
  = Some {| combinedType := "location"; combinedIds := [] |}.
Proof.
  exact (facet_only_selection
           (sampleProps (Some "location") (Some [1; 2]) None None None)
           eq_refl eq_refl eq_refl).
Defined.

(** The selection of C4 does not have the empty combined type. *)
Lemma location_only_type_not_empty :
  getCombinedTypeAndIds (sampleProps (Some "location") (Some [1; 2]) None None None)
  ≠ Some {| combinedType := ""; combinedIds := [] |}.
Proof. discriminate. Qed.

(** A facet type outside the catalog does not give the empty list of filter
    types: it gives those of location. *)
Lemma getFilterTypes_unknown_not_empty :
  facetType (sampleProps (Some "foo") (Some [1]) None None None) = Some "foo" ∧
  getFilterTypes (sampleProps (Some "foo") (Some [1]) None None None)
    = [clientIspType; transitIspType] ∧
  getFilterTypes (sampleProps (Some "foo") (Some [1]) None None None) ≠ [].
Proof. split; [reflexivity|]. split; [reflexivity|]. discriminate. Qed.


Lemma combined_status_error_witness :
  (∃ item, item ∈ sampleGroup ∧ timeSeriesStatus item = StatusError) ∧
  cts_status (combineTimeSeries sampleGroup) = StatusError.
Proof.
  assert (∃ item, item ∈ sampleGroup ∧ timeSeriesStatus item = StatusError) as Herror.
  { exists (sampleItem (sampleCombinedId 1 None 20 "1_20") (sampleRecord StatusError None)).
    split; [|done]. unfold sampleGroup. apply list_elem_of_further, list_elem_of_here. }
  split; [exact Herror|].
  exact (combined_status_error sampleGroup Herror).
Defined.

Lemma topFilter_removes_selected_witness :
  ∃ r,
    topFilter sampleTop locationType clientIspType sampleSelected
      = Some r ∧
    tf_status r = StatusSuccess ∧
    tf_data r = take 20 (filter (λ d, ¬ isSelected clientIspType sampleSelected d)
                           sampleCandidates) ∧
    (length (tf_data r) ≤ 20)%nat ∧
    (∀ d, d ∈ tf_data r →
       d ∈ sampleCandidates ∧ ¬ isSelected clientIspType sampleSelected d).
Proof.
  refine (topFilter_removes_selected sampleTop locationType clientIspType sampleSelected
            {| res_status := StatusSuccess; res_data := Some sampleCandidates |} _ _).
  - reflexivity.
  - discriminate.
Defined.

(** ** The further properties on concrete selections *)

(** A facet item id that is a name of [Object.prototype] reads as the
    inherited member, not as a missing entity; the time series and the hourly
    data of the facet items then throw. An id that is neither in the store
    nor such a name is left out. *)
Example getFacetItems_inherited_member :
  @getFacetItems stringCollaborators sampleInheritedFacet sampleLocations ∅ ∅
    = [ JS.Own (sampleLocation "nauswaseattle"); JS.Inherited ["constructor"] ] ∧
  @getFacetItemTimeSeries stringCollaborators sampleInheritedFacet sampleLocations ∅ ∅
    = None ∧
  @getFacetItemHourly stringCollaborators sampleInheritedFacet sampleLocations ∅ ∅ "download"
    = None ∧
  @getFacetItems stringCollaborators
      (@Build_Props stringCollaborators (Some "location")
         (JS.Defined ["nauswaseattle"; "nausnyc"]) JS.Undefined JS.Undefined None)
      sampleLocations ∅ ∅
    = [ JS.Own (sampleLocation "nauswaseattle") ].
Proof. repeat split; reflexivity. Qed.

Lemma combined_ids_come_from_their_roles_witness :
  (1 : Z) ∈ [1 : Z] ∧
  ((20 : Z) ∈ [10; 20 : Z] ∨ (20 : Z) ∈ @nil Z) ∧
  (∀ b : Z, @None Z = Some b → b ∈ [1 : Z] ∨ b ∈ [10; 20 : Z] ∨ b ∈ @nil Z).
Proof.
  refine (combined_ids_come_from_their_roles sampleTwoDimensions
            {| combinedType := "location-clientIsp";
               combinedIds := [ sampleCombinedId 1 None 10 "1_10";
                                sampleCombinedId 1 None 20 "1_20" ] |}
            (sampleCombinedId 1 None 20 "1_20") _ _).
  - reflexivity.
  - apply list_elem_of_further, list_elem_of_here.
Defined.

Lemma two_dimensions_entries_witness :
  ∃ r filterType,
    getCombinedTypeAndIds sampleTwoDimensions = Some r ∧
    activeFilterTypes sampleTwoDimensions = [filterType] ∧
    ∀ entry, entry ∈ combinedIds r ↔
      ∃ f a, f ∈ [1 : Z] ∧ a ∈ [10; 20 : Z] ++ [] ∧
        entry = sampleCombinedId f None a
                  (pairKey (value (getFacetType sampleTwoDimensions)) (value filterType) f a).
Proof.
  refine (two_dimensions_entries sampleTwoDimensions _). discriminate.
Defined.

Lemma breakdown_by_filter2_witness :
  ∃ r,
    getCombinedTypeAndIds
      (sampleProps (Some "transitIsp") (Some [1]) (Some [10; 20]) (Some [7; 8])
         (Some "filter2")) = Some r ∧
    combinedType r = "location-clientIsp-transitIsp" ∧
    ∀ entry, entry ∈ combinedIds r ↔
      ∃ f a b, f ∈ [1] ∧ a ∈ [10; 20] ∧ b ∈ [7; 8] ∧
        entry = sampleCombinedId f (Some b) a (sampleKey3 a b f).
Proof.
  exact (breakdown_by_filter2
           (sampleProps (Some "transitIsp") (Some [1]) (Some [10; 20]) (Some [7; 8])
              (Some "filter2"))
           eq_refl eq_refl eq_refl).
Defined.

Lemma topKeyFromTypes_inj_witness :
  @locationType sampleCollaborators = locationType ∧
  @clientIspType sampleCollaborators = clientIspType.
Proof.
  refine (topKeyFromTypes_inj locationType clientIspType locationType clientIspType
            _ _ _ _ eq_refl); unfold facetTypes.
  - apply list_elem_of_here.
  - apply list_elem_of_further, list_elem_of_here.
  - apply list_elem_of_here.
  - apply list_elem_of_further, list_elem_of_here.
Defined.

Lemma topFilter_nothing_selected_witness :
  tf_data <$> topFilter sampleTop locationType clientIspType JS.Undefined
    = Some (take 20 sampleCandidates).
Proof.
  refine (topFilter_nothing_selected sampleTop locationType clientIspType JS.Undefined
            {| res_status := StatusSuccess; res_data := Some sampleCandidates |} _ _ _).
  - reflexivity.
  - discriminate.
  - intros d _. unfold isSelected. destruct (d !! idKey clientIspType).
    + apply not_elem_of_nil.
    + tauto.
Defined.

Lemma combineData_groups_witness :
  ∃ grouped,
    combineData combineHourly "location-clientIsp" (Some sampleGroup) "download"
      = Some grouped ∧
    match grouped with
    | ByFacetItem byFacetItem =>
        "location-clientIsp" ≠ "location-clientIsp-transitIsp" ∧
        ∀ k, byFacetItem !! k
             = (λ items, combineHourly items "download")
               <$> nonEmpty (filter (λ item, facetKeyOf item = k) sampleGroup)
    | ByFacetItemAndBreakdown byFacetItem =>
        "location-clientIsp" = "location-clientIsp-transitIsp" ∧
        ∀ k k', (byFacetItem !! k ≫= λ byBreakdown, byBreakdown !! k')
                = (λ items, combineHourly items "download")
                  <$> nonEmpty (filter (λ item, breakdownKeyOf item = k')
                                  (filter (λ item, facetKeyOf item = k) sampleGroup))
    end.
Proof.
  refine (combineData_groups combineHourly "location-clientIsp" sampleGroup "download" _).
  discriminate.
Defined.

Lemma facet_only_gives_no_series_witness :
  getCombinedItems (sampleProps (Some "location") (Some [1; 2]) None (Some []) None)
    sampleLocationClientIsps ∅ ∅ ∅ = Some [] ∧
  getCombinedTimeSeries (sampleProps (Some "location") (Some [1; 2]) None (Some []) None)
    sampleLocationClientIsps ∅ ∅ ∅ "download" = Some None ∧
  getCombinedHourly (sampleProps (Some "location") (Some [1; 2]) None (Some []) None)
    sampleLocationClientIsps ∅ ∅ ∅ "download" = Some None.
Proof.
  exact (facet_only_gives_no_series
           (sampleProps (Some "location") (Some [1; 2]) None (Some []) None)
           sampleLocationClientIsps ∅ ∅ ∅ "download" eq_refl eq_refl).
Defined.

(** The two records of the sample store are grouped under the one facet
    item, whose status is error. *)
Example sample_pipeline :
  getCombinedTimeSeries sampleTwoDimensions sampleLocationClientIsps ∅ ∅ ∅ "download"
  = Some (Some (ByFacetItem
                  {[ "1" := {| cts_statuses := [StatusSuccess; StatusError];
                               cts_data := [[5; 6]];
                               cts_status := StatusError;
                               cts_counts := 1%nat |} ]})).
Proof. reflexivity. Qed.

Lemma grouped_keys_are_facet_ids_witness :
  ∃ f : Z, f ∈ [1 : Z] ∧ "1" = pretty f.
Proof.
  refine (grouped_keys_are_facet_ids sampleTwoDimensions sampleLocationClientIsps ∅ ∅ ∅
            "download" "1" _).
  left. eexists. split; [reflexivity|].
  apply elem_of_dom. eexists. reflexivity.
Defined.


Lemma sorted_dimensions_unique_witness :
  [ @filterDimension sampleCollaborators filter1 "filter1" locationType (Some [10; 20]) None;
    @facetDimension sampleCollaborators clientIspType (Some [1]);
    @filterDimension sampleCollaborators filter2 "filter2" transitIspType (Some [7; 8]) None ]
  = JS.sort compareSort
      [ @facetDimension sampleCollaborators clientIspType (Some [1]);
        @filterDimension sampleCollaborators filter1 "filter1" locationType (Some [10; 20]) None;
        @filterDimension sampleCollaborators filter2 "filter2" transitIspType (Some [7; 8]) None ].
Proof.
  refine (sorted_dimensions_unique sampleThreeDimensions _ _ _ _ _).
  - reflexivity.
  - apply Permutation_swap.
  - repeat (constructor; [|repeat constructor; by vm_compute]). constructor.
Defined.

Lemma grouped_status_error_witness :
  ∃ group,
    ({[ "1" := combineTimeSeries sampleGroup ]} : gmap string CombinedTimeSeries)
      !! "1" = Some group ∧
    cts_status group = StatusError.
Proof.
  refine (grouped_status_error {| combinedType := "location-clientIsp"; combinedIds := [] |}
            None sampleGroup "download"
            (sampleItem (sampleCombinedId 1 None 20 "1_20") (sampleRecord StatusError None))
            _ _).
  - apply list_elem_of_further, list_elem_of_here.
  - reflexivity.
Defined.
